(** * Regression Prediction App (src/app.py): a shallow embedding

    The Dash callbacks of [app.py] are embedded as state-passing functions
    over the two module globals, [uploaded_data] and [model].  Python
    exceptions are values: a call either returns or raises, and a mutation of
    a global made before a [raise] stays made, exactly as in Python.

    pandas, scikit-learn and xgboost are not part of the repository.  What the
    callbacks rely on structurally (column selection by name or by dtype,
    [get_dummies], the order in which [Pipeline.fit] fills in a pipeline) is
    written out below; what is numerical (parsing a float, scaling, boosting,
    scoring, plotting) is an operation of the class [Library].  The
    properties of the callbacks are proved for all of its instances; a small
    executable instance runs them on a table at the end. *)

From Stdlib Require Import String Ascii List ZArith QArith Qround Bool Lia DecimalString.
Import ListNotations.
Open Scope string_scope.
Open Scope list_scope.

Set Implicit Arguments.

(** ** Python values used by the callbacks *)

(** [str.split(sep)] with a one-character separator: never returns the empty
    list, and keeps empty fields. *)
Fixpoint split (sep : ascii) (s : string) : list string :=
  match s with
  | EmptyString => [EmptyString]
  | String c rest =>
      if Ascii.eqb c sep then EmptyString :: split sep rest
      else match split sep rest with
           | [] => [String c EmptyString]
           | w :: ws => String c w :: ws
           end
  end.

Definition comma : ascii := ","%char.

(** [s.count(c)] for a one-character [c]. *)
Fixpoint count_char (c : ascii) (s : string) : nat :=
  match s with
  | EmptyString => 0%nat
  | String d rest => ((if Ascii.eqb d c then 1 else 0) + count_char c rest)%nat
  end.

(** [str(n)] of a non-negative [int], as an f-string prints it. *)
Definition str_nat (n : nat) : string := NilZero.string_of_uint (Nat.to_uint n).

(** Truthiness of an optional string and of an optional list ([not x]). *)
Definition truthy_str (x : option string) : bool :=
  match x with
  | None => false
  | Some s => negb (String.eqb s EmptyString)
  end.

Definition truthy_list {A} (x : option (list A)) : bool :=
  match x with
  | None | Some [] => false
  | Some (_ :: _) => true
  end.

Definition mem (x : string) (l : list string) : bool := existsb (String.eqb x) l.

(** ** Exceptions and results *)

Inductive exn : Type :=
| KeyError (key : string)
| ValueError (msg : string)
| AttributeError (msg : string)
| TypeError (msg : string)
| LibraryError (msg : string).

(** [str(e)], what [f"{e}"] prints; a [KeyError] prints the repr of its key. *)
Definition str (e : exn) : string :=
  match e with
  | KeyError key => ("'" ++ key ++ "'")%string
  | ValueError msg | AttributeError msg | TypeError msg | LibraryError msg => msg
  end.

Inductive result (A : Type) : Type :=
| Return (a : A)
| Raise (e : exn).
Arguments Return {A} a.
Arguments Raise {A} e.

Definition rbind {A B} (r : result A) (k : A -> result B) : result B :=
  match r with
  | Return a => k a
  | Raise e => Raise e
  end.

Fixpoint rmap {A B} (f : A -> result B) (l : list A) : result (list B) :=
  match l with
  | [] => Return []
  | a :: l' => rbind (f a) (fun b => rbind (rmap f l') (fun bs => Return (b :: bs)))
  end.

(** ** Frames *)

Section Frames.
Variable F : Type.   (* Python's float *)

(** A column, by dtype.  [read_csv] yields int64, float64, bool and object
    columns; an object column read from a CSV holds strings and NaN
    ([None] here). *)
Inductive Series : Type :=
| Int64 (xs : list Z)
| Float64 (xs : list F)
| Bool (xs : list bool)
| Object (xs : list (option string))
| Category (xs : list (option string))
| Datetime64 (xs : list Z).

(** [include=np.number] / [include=['number']]: bool is not a number. *)
Definition is_number (s : Series) : bool :=
  match s with
  | Int64 _ | Float64 _ => true
  | _ => false
  end.

(** [include=['object']] *)
Definition is_object (s : Series) : bool :=
  match s with
  | Object _ => true
  | _ => false
  end.

(** [include=['object', 'category']] *)
Definition is_object_or_category (s : Series) : bool :=
  match s with
  | Object _ | Category _ => true
  | _ => false
  end.

(** Rows of a column picked by position ([iloc]).  The positions come from
    [train_test_split] on a frame of the same length, which yields
    positions of that frame; one out of range contributes nothing here. *)
Definition take {A} (idx : list nat) (xs : list A) : list A :=
  flat_map (fun i => match nth_error xs i with Some x => [x] | None => [] end) idx.

Definition series_take (idx : list nat) (s : Series) : Series :=
  match s with
  | Int64 xs => Int64 (take idx xs)
  | Float64 xs => Float64 (take idx xs)
  | Bool xs => Bool (take idx xs)
  | Object xs => Object (take idx xs)
  | Category xs => Category (take idx xs)
  | Datetime64 xs => Datetime64 (take idx xs)
  end.

(** A frame: its number of rows and its columns, in order. *)
Record DataFrame : Type := mkFrame {
  nrows : nat;
  cols : list (string * Series)
}.

Definition columns (df : DataFrame) : list string := map fst (cols df).

Fixpoint lookup (name : string) (l : list (string * Series)) : option Series :=
  match l with
  | [] => None
  | (n, s) :: l' => if String.eqb name n then Some s else lookup name l'
  end.

(** [df.select_dtypes(include=...)] *)
Definition select_dtypes (include : Series -> bool) (df : DataFrame) : DataFrame :=
  mkFrame (nrows df) (filter (fun c => include (snd c)) (cols df)).

(** [df[name]] *)
Definition getitem (df : DataFrame) (name : string) : result Series :=
  match lookup name (cols df) with
  | Some s => Return s
  | None => Raise (KeyError name)
  end.

(** [df[names]]: the named columns in the order asked for; the index is
    kept.  A name that is no column raises a [KeyError] (pandas words its
    key differently for a list; the callbacks only print it). *)
Definition getitem_list (df : DataFrame) (names : list string) : result DataFrame :=
  rbind (rmap (fun n => rbind (getitem df n) (fun s => Return (n, s))) names)
        (fun cs => Return (mkFrame (nrows df) cs)).

(** [df.iloc[idx]] *)
Definition iloc (df : DataFrame) (idx : list nat) : DataFrame :=
  mkFrame (length idx) (map (fun c => (fst c, series_take idx (snd c))) (cols df)).

(** [df[name] = 0]: overwrite the column if there is one, else append. *)
Fixpoint assign (name : string) (s : Series) (l : list (string * Series))
  : list (string * Series) :=
  match l with
  | [] => [(name, s)]
  | (n, s') :: l' => if String.eqb name n then (n, s) :: l' else (n, s') :: assign name s l'
  end.

Definition setitem_zero (df : DataFrame) (name : string) : DataFrame :=
  mkFrame (nrows df) (assign name (Int64 (repeat 0%Z (nrows df))) (cols df)).

(** [pd.get_dummies(df)]: the columns that are not object or category stay,
    in order, in front; each object column is replaced by one boolean
    column per level (value it holds, NaN apart), named [column_level].
    pandas sorts the levels of a column; the frames of this program that
    are expanded have one row, hence at most one level per column. *)
Definition levels (xs : list (option string)) : list string :=
  nodup string_dec (flat_map (fun x => match x with Some v => [v] | None => [] end) xs).

Definition is_level (v : string) (x : option string) : bool :=
  match x with
  | Some w => String.eqb w v
  | None => false
  end.

Definition dummies_of (c : string * Series) : list (string * Series) :=
  match snd c with
  | Object xs | Category xs =>
      map (fun v => ((fst c ++ "_" ++ v)%string, Bool (map (is_level v) xs))) (levels xs)
  | _ => []
  end.

Definition get_dummies (df : DataFrame) : DataFrame :=
  mkFrame (nrows df)
          (filter (fun c => negb (is_object_or_category (snd c))) (cols df)
           ++ flat_map dummies_of (cols df)).
End Frames.

Arguments Int64 {F} xs.
Arguments Float64 {F} xs.
Arguments Bool {F} xs.
Arguments Object {F} xs.
Arguments Category {F} xs.
Arguments Datetime64 {F} xs.

(** ** The libraries *)

(** [XGBRegressor(...)]'s keyword arguments. *)
Record XGBParams : Type := mkXGB {
  n_estimators : nat;
  max_depth : nat;
  learning_rate : Q;
  subsample : Q;
  xgb_random_state : option Z
}.

(** What a categorical cell looks like to the imputer and the encoder: a
    string, a missing value (NaN), or some other scalar (a number, a
    boolean), which is equal to no string. *)
Inductive label : Type :=
| LStr (s : string)
| LNaN
| LOther.

Class Library : Type := {
  (* Python floats *)
  F : Type;
  isnan : F -> bool;
  zero : F;
  one : F;
  (* [float(s)]: [None] stands for the [ValueError] *)
  float : string -> option F;
  (* [f"{x}"] and [f"{x:.4f}"] *)
  str_float : F -> string;
  format_4f : F -> string;
  (* [base64.b64decode], [bytes.decode('utf-8')], [pd.read_csv] *)
  b64decode : string -> result string;
  decode_utf8 : string -> result string;
  read_csv : string -> result (DataFrame F);
  (* numpy generators.  [shuffle_split n test_size g] is the permutation
     and cut that [train_test_split] makes for [n] samples with generator
     [g]: the train positions and the test positions, and [g] advanced. *)
  RandomState : Type;
  seeded : Z -> RandomState;
  shuffle_split : nat -> Q -> RandomState -> result (list nat * list nat) * RandomState;
  (* the 'num' pipeline, mean imputation then standard scaling: fitted on
     the numeric columns, then mapping columns to columns of floats *)
  NumFitted : Type;
  num_fit : list (Series F) -> result NumFitted;
  num_transform : NumFitted -> list (Series F) -> result (list (list F));
  (* the 'cat' pipeline's fit on one column: the most frequent value, and
     the categories of the imputed column *)
  cat_fit : list label -> result (string * list string);
  (* xgboost *)
  Booster : Type;
  xgb_fit : XGBParams -> list (list F) -> Series F -> result Booster;
  xgb_predict : Booster -> list (list F) -> result (list F);
  (* [sklearn.metrics.r2_score] *)
  r2_score : Series F -> list F -> result F;
  (* pandas aggregates and plotly, for the charts *)
  Figure : Type;
  group_mean : Series F -> Series F -> result (list (string * F));
  corr : DataFrame F -> list (string * list (string * F));
  abs_sort_descending : list (string * F) -> list (string * F);
  px_bar : list (string * F) -> string -> result Figure
}.

Section App.
Context {L : Library}.

(** *** The fitted pipeline

    The matrices handed to the regressor are lists of columns, so stacking
    blocks side by side is [++]. *)

Definition labels (s : Series F) : list label :=
  match s with
  | Object xs | Category xs =>
      map (fun x => match x with Some v => LStr v | None => LNaN end) xs
  | Float64 xs => map (fun x => if isnan x then LNaN else LOther) xs
  | Int64 xs => map (fun _ => LOther) xs
  | Bool xs => map (fun _ => LOther) xs
  | Datetime64 xs => map (fun _ => LOther) xs
  end.

(** [SimpleImputer(strategy='most_frequent').transform] on a cell. *)
Definition impute (fill : string) (l : label) : label :=
  match l with
  | LNaN => LStr fill
  | _ => l
  end.

(** [OneHotEncoder(handle_unknown='ignore').transform] on one column: one
    output column per category; a cell equal to no category gives zero in
    each of them. *)
Definition hot (category : string) (l : label) : F :=
  match l with
  | LStr s => if String.eqb s category then one else zero
  | _ => zero
  end.

Definition onehot (fill : string) (categories : list string) (s : Series F) : list (list F) :=
  map (fun c => map (fun l => hot c (impute fill l)) (labels s)) categories.

(** The state of a fitted 'cat' pipeline: per categorical column, the
    imputer's fill value and the encoder's categories. *)
Definition CatFitted : Type := list (string * (string * list string)).

(** The [ColumnTransformer]: its two column lists, and what [fit] leaves
    in it.  Columns in neither list are dropped ([remainder='drop'], the
    default). *)
Record ColumnTransformer : Type := mkCT {
  numeric_features : list string;
  categorical_features : list string;
  feature_names_in_ : option (list string);
  transformers_ : option (NumFitted * CatFitted)
}.

(** [Pipeline(steps=[('preprocessor', ...), ('regressor', XGBRegressor(...))])] *)
Record Pipeline : Type := mkPipeline {
  preprocessor : ColumnTransformer;
  regressor : XGBParams;
  booster_ : option Booster
}.

(** Selecting a transformer's columns by name from the frame. *)
Definition select_columns (names : list string) (X : DataFrame F) : result (list (Series F)) :=
  rmap (fun n => match lookup n (cols X) with
                 | Some s => Return s
                 | None => Raise (ValueError ("columns are missing: " ++ n))
                 end) names.

Definition cat_fit_columns (names : list string) (X : DataFrame F) : result CatFitted :=
  rmap (fun n => match lookup n (cols X) with
                 | Some s => rbind (cat_fit (labels s)) (fun fc => Return (n, fc))
                 | None => Raise (ValueError ("columns are missing: " ++ n))
                 end) names.

Definition cat_transform (cf : CatFitted) (X : DataFrame F) : result (list (list F)) :=
  rbind (rmap (fun nfc => match lookup (fst nfc) (cols X) with
                          | Some s => Return (onehot (fst (snd nfc)) (snd (snd nfc)) s)
                          | None => Raise (ValueError ("columns are missing: " ++ fst nfc))
                          end) cf)
        (fun blocks => Return (concat blocks)).

(** [ColumnTransformer.transform]: the 'num' block, then the 'cat' block. *)
Definition ct_transform (ct : ColumnTransformer) (X : DataFrame F) : result (list (list F)) :=
  match transformers_ ct with
  | None => Raise (AttributeError "'ColumnTransformer' object has no attribute 'transformers_'")
  | Some (nf, cf) =>
      rbind (select_columns (numeric_features ct) X) (fun ncols =>
      rbind (num_transform nf ncols) (fun Xn =>
      rbind (cat_transform cf X) (fun Xc =>
      Return (Xn ++ Xc))))
  end.

(** [ColumnTransformer.fit_transform]'s work on a frame: fit the two
    sub-pipelines and transform the frame with them. *)
Definition ct_fit_transform (ct : ColumnTransformer) (X : DataFrame F)
  : result ((NumFitted * CatFitted) * list (list F)) :=
  rbind (select_columns (numeric_features ct) X) (fun ncols =>
  rbind (num_fit ncols) (fun nf =>
  rbind (num_transform nf ncols) (fun Xn =>
  rbind (cat_fit_columns (categorical_features ct) X) (fun cf =>
  rbind (cat_transform cf X) (fun Xc =>
  Return ((nf, cf), Xn ++ Xc)))))).

(** *** The process state and the monad of the callbacks *)

(** Calls into a model, recorded as they are made (a ghost log, which the
    program itself never reads). *)
Inductive call : Type :=
| called_fit
| called_predict.

Record state : Type := mkState {
  uploaded_data : option (DataFrame F);   (* global [uploaded_data] *)
  model : option Pipeline;                (* global [model] *)
  np_random : RandomState;                (* numpy's global generator *)
  calls : list call
}.

Definition M (A : Type) : Type := state -> result A * state.

Definition ret {A} (a : A) : M A := fun s => (Return a, s).

Definition raise {A} (e : exn) : M A := fun s => (Raise e, s).

Definition lift {A} (r : result A) : M A := fun s => (r, s).

Definition bind {A B} (m : M A) (k : A -> M B) : M B :=
  fun s => match m s with
           | (Return a, s') => k a s'
           | (Raise e, s') => (Raise e, s')
           end.

(** [try: m  except Exception as e: h e] *)
Definition try_except {A} (m : M A) (h : exn -> M A) : M A :=
  fun s => match m s with
           | (Return a, s') => (Return a, s')
           | (Raise e, s') => h e s'
           end.

Notation "x <- m ;; k" := (bind m (fun x => k))
  (at level 61, m at next level, right associativity).
Notation "m ;;; k" := (bind m (fun _ => k))
  (at level 61, right associativity).

Definition get_uploaded_data : M (option (DataFrame F)) := fun s => (Return (uploaded_data s), s).

Definition set_uploaded_data (d : option (DataFrame F)) : M unit :=
  fun s => (Return tt, mkState d (model s) (np_random s) (calls s)).

Definition get_model : M (option Pipeline) := fun s => (Return (model s), s).

Definition set_model (m : option Pipeline) : M unit :=
  fun s => (Return tt, mkState (uploaded_data s) m (np_random s) (calls s)).

Definition log (c : call) : M unit :=
  fun s => (Return tt, mkState (uploaded_data s) (model s) (np_random s) (calls s ++ [c])).

(** A computation that only reads the state; and two states that hold the
    same globals (they may differ in the ghost log). *)
Definition reads_only {A} (m : M A) : Prop := forall s, snd (m s) = s.

Definition same_globals (s s' : state) : Prop :=
  uploaded_data s = uploaded_data s'
  /\ model s = model s'
  /\ np_random s = np_random s'.

(** Two rows of processed tokens that hold the same floats at the same
    places, and strings (any strings) at the other places. *)
Definition same_numbers (row row' : list (F + string)) : Prop :=
  Forall2 (fun v v' => match v, v' with
                       | inl x, inl x' => x = x'
                       | inr _, inr _ => True
                       | _, _ => False
                       end) row row'.

(** [train_test_split(X, y, test_size=..., random_state=...)]: with a seed
    the split is drawn from a generator made for the call; without one it is
    drawn from numpy's global generator, which advances. *)
Definition train_test_split (X : DataFrame F) (y : Series F) (test_size : Q)
    (random_state : option Z)
  : M (DataFrame F * DataFrame F * Series F * Series F) :=
  fun s =>
    let n := nrows X in
    let rs' :=
      match random_state with
      | Some seed => (fst (shuffle_split n test_size (seeded seed)), s)
      | None =>
          let rg := shuffle_split n test_size (np_random s) in
          (fst rg, mkState (uploaded_data s) (model s) (snd rg) (calls s))
      end in
    match fst rs' with
    | Return (train, test) =>
        (Return (iloc X train, iloc X test, series_take train y, series_take test y), snd rs')
    | Raise e => (Raise e, snd rs')
    end.

(** [Pipeline.fit(X, y)] fits the steps of the pipeline object in place, so
    it is a function from the object to its outcome and the object as the
    call leaves it, also when it raises.  The [ColumnTransformer] records
    the frame's column names when its fit starts and its fitted transformers
    when it ends; then the regressor is fitted on the transformed frame. *)
Definition pipeline_fit (p : Pipeline) (X : DataFrame F) (y : Series F)
  : result unit * Pipeline :=
  let ct := preprocessor p in
  let ct1 := mkCT (numeric_features ct) (categorical_features ct)
                  (Some (columns X)) (transformers_ ct) in
  match ct_fit_transform ct1 X with
  | Raise e => (Raise e, mkPipeline ct1 (regressor p) (booster_ p))
  | Return ft =>
      let ct2 := mkCT (numeric_features ct) (categorical_features ct)
                      (Some (columns X)) (Some (fst ft)) in
      match xgb_fit (regressor p) (snd ft) y with
      | Raise e => (Raise e, mkPipeline ct2 (regressor p) (booster_ p))
      | Return b => (Return tt, mkPipeline ct2 (regressor p) (Some b))
      end
  end.

(** [Pipeline.predict(X)]: transform, then the regressor. *)
Definition pipeline_predict (p : Pipeline) (X : DataFrame F) : result (list F) :=
  rbind (ct_transform (preprocessor p) X) (fun Xt =>
  match booster_ p with
  | None => Raise (LibraryError "need to call fit or load_model beforehand")
  | Some b => xgb_predict b Xt
  end).

(** [model.fit(X, y)] and [model.predict(X)] on the global [model]. *)
Definition model_fit (X : DataFrame F) (y : Series F) : M unit :=
  m <- get_model ;;
  match m with
  | None => raise (AttributeError "'NoneType' object has no attribute 'fit'")
  | Some p =>
      log called_fit ;;;
      set_model (Some (snd (pipeline_fit p X y))) ;;;
      lift (fst (pipeline_fit p X y))
  end.

Definition model_predict (X : DataFrame F) : M (list F) :=
  m <- get_model ;;
  match m with
  | None => raise (AttributeError "'NoneType' object has no attribute 'predict'")
  | Some p =>
      log called_predict ;;;
      lift (pipeline_predict p X)
  end.

(** [model.feature_names_in_]: [Pipeline] hands the attribute of its first
    step, the names of the columns of the frame that step was fitted on. *)
Definition model_feature_names_in_ : M (list string) :=
  m <- get_model ;;
  match m with
  | None => raise (AttributeError "'NoneType' object has no attribute 'feature_names_in_'")
  | Some p =>
      match feature_names_in_ (preprocessor p) with
      | None => raise (AttributeError
                         "'ColumnTransformer' object has no attribute 'feature_names_in_'")
      | Some names => ret names
      end
  end.
(** ** The callbacks *)

Local Open Scope string_scope.

(** *** Upload (lines 107-117) *)

Definition str_opt (x : option string) : string :=
  match x with
  | Some v => v
  | None => "None"
  end.

(** The body of the [try] up to the value assigned to [uploaded_data]. *)
Definition parse_upload (contents : string) : result (DataFrame F) :=
  match split comma contents with
  | [content_type; content_string] =>
      rbind (b64decode content_string) (fun decoded =>
      rbind (decode_utf8 decoded) (fun text =>
      read_csv text))
  | [_] => Raise (ValueError "not enough values to unpack (expected 2, got 1)")
  | _ => Raise (ValueError "too many values to unpack (expected 2)")
  end.

Definition handle_upload (contents filename : option string) : M string :=
  match contents with
  | Some contents' =>
      if truthy_str contents then
        try_except
          (df <- lift (parse_upload contents') ;;
           set_uploaded_data (Some df) ;;;
           ret ("Uploaded file: " ++ str_opt filename
                ++ " (Rows: " ++ str_nat (nrows df)
                ++ ", Columns: " ++ str_nat (length (cols df)) ++ ")"))
          (fun e => ret ("Error reading file: " ++ str e))
      else ret "No file uploaded."
  | None => ret "No file uploaded."
  end.

(** *** Target dropdown (lines 126-130) and feature checkboxes (172-183)

    An option [{'label': col, 'value': col}] is the pair [(col, col)]. *)

Definition option_of (col : string) : string * string := (col, col).

Definition update_target_dropdown : M (list (string * string)) :=
  d <- get_uploaded_data ;;
  match d with
  | Some df =>
      let numerical_cols := columns (select_dtypes (@is_number F) df) in
      ret (map option_of numerical_cols)
  | None => ret []
  end.

Definition get_options : M (list (string * string)) :=
  d <- get_uploaded_data ;;
  match d with
  | Some df =>
      let numerical_columns := columns (select_dtypes (@is_number F) df) in
      let categorical_columns := columns (select_dtypes (@is_object_or_category F) df) in
      let options := (map option_of numerical_columns ++ map option_of categorical_columns)%list in
      ret options
  | None => ret []
  end.

(** *** Bar charts (lines 141-162); a chart is [None] for [{}] *)

Definition is_empty (df : DataFrame F) : bool :=
  (nrows df =? 0)%nat || match cols df with [] => true | _ => false end.

(** [s.drop(label)] on a labelled series. *)
Definition drop (key : string) (s : list (string * F)) : result (list (string * F)) :=
  if mem key (map fst s)
  then Return (filter (fun kv => negb (String.eqb (fst kv) key)) s)
  else Raise (KeyError ("['" ++ key ++ "'] not found in axis")).

Fixpoint lookup_corr (key : string) (m : list (string * list (string * F)))
  : result (list (string * F)) :=
  match m with
  | [] => Raise (KeyError key)
  | (k, v) :: m' => if String.eqb key k then Return v else lookup_corr key m'
  end.

(** [uploaded_data.groupby(categorical_var)[target].mean()] *)
Definition groupby_mean (df : DataFrame F) (categorical_var target : string)
  : result (list (string * F)) :=
  rbind (getitem df categorical_var) (fun keys =>
  match lookup target (cols df) with
  | None => Raise (KeyError ("Column not found: " ++ target))
  | Some values => group_mean keys values
  end).

Definition update_barcharts (target categorical_var : option string)
  : M (list (string * string) * option Figure * option Figure) :=
  d <- get_uploaded_data ;;
  match d, target with
  | Some df, Some target' =>
      let numeric_data := select_dtypes (@is_number F) df in
      let cat_cols := columns (select_dtypes (@is_object F) df) in
      let categorical_options := map option_of cat_cols in
      category_chart <-
        (match categorical_var with
         | Some categorical_var' =>
             if truthy_str categorical_var then
               avg_values <- lift (groupby_mean df categorical_var' target') ;;
               fig <- lift (px_bar avg_values "Average Target by Category") ;;
               ret (Some fig)
             else ret None
         | None => ret None
         end) ;;
      corr_chart <-
        (if is_empty numeric_data then ret None
         else
           column <- lift (lookup_corr target' (corr numeric_data)) ;;
           dropped <- lift (drop target' column) ;;
           let correlations := abs_sort_descending dropped in
           fig <- lift (px_bar correlations "Correlation Strength") ;;
           ret (Some fig)) ;;
      ret (categorical_options, category_chart, corr_chart)
  | _, _ => ret ([], None, None)
  end.

(** *** Train (lines 193-243) *)

Definition xgb_params : XGBParams := mkXGB 200 3 (3 # 10) 1 (Some 42%Z).

(** The body of the [try], up to the score. *)
Definition train_body (df : DataFrame F) (target : string) (selected_features : list string)
  : M F :=
  X <- lift (getitem_list df selected_features) ;;
  y <- lift (getitem df target) ;;
  split4 <- train_test_split X y (2 # 10) (Some 42%Z) ;;
  let '(X_train, X_test, y_train, y_test) := split4 in
  let numeric_features := columns (select_dtypes (@is_number F) X) in
  let categorical_features := columns (select_dtypes (@is_object F) X) in
  let preprocessor := mkCT numeric_features categorical_features None None in
  set_model (Some (mkPipeline preprocessor xgb_params None)) ;;;
  model_fit X_train y_train ;;;
  y_pred <- model_predict X_test ;;
  r2 <- lift (r2_score y_test y_pred) ;;
  ret r2.

(** Lines 209-213 on their own: the slices and the seeded split, which read
    neither [model] nor numpy's global generator. *)
Definition slicing_and_splitting (df : DataFrame F) (target : string)
    (selected_features : list string)
  : result (DataFrame F * (DataFrame F * DataFrame F * Series F * Series F)) :=
  rbind (getitem_list df selected_features) (fun X =>
  rbind (getitem df target) (fun y =>
  rbind (fst (shuffle_split (nrows X) (2 # 10) (seeded 42%Z))) (fun tt' =>
  Return (X, (iloc X (fst tt'), iloc X (snd tt'),
              series_take (fst tt') y, series_take (snd tt') y))))).

(** The pipeline that line 230 assigns to [model], for the slice [X]. *)
Definition new_pipeline (X : DataFrame F) : Pipeline :=
  mkPipeline (mkCT (columns (select_dtypes (@is_number F) X))
                   (columns (select_dtypes (@is_object F) X)) None None)
             xgb_params None.

(** Two frames agree on some names when they hold the same column under
    each of them. *)
Definition agree (names : list string) (X X' : DataFrame F) : Prop :=
  forall n, In n names -> lookup n (cols X) = lookup n (cols X').

(** Two pipelines that differ at most in the recorded input names. *)
Definition same_fit (p p' : Pipeline) : Prop :=
  numeric_features (preprocessor p) = numeric_features (preprocessor p')
  /\ categorical_features (preprocessor p) = categorical_features (preprocessor p')
  /\ transformers_ (preprocessor p) = transformers_ (preprocessor p')
  /\ regressor p = regressor p'
  /\ booster_ p = booster_ p'.

(** The fitted 'cat' state lists the 'cat' columns. *)
Definition fitted_names_ok (p : Pipeline) : Prop :=
  forall nf cf, transformers_ (preprocessor p) = Some (nf, cf) ->
                map fst cf = categorical_features (preprocessor p).

(** The dtype test [include] on the column of the dataset called [c]; and
    whether that column is one that a transformer takes, a numeric or an
    object column. *)
Definition column_is (include : Series F -> bool) (df : DataFrame F) (c : string) : bool :=
  match lookup c (cols df) with
  | Some x => include x
  | None => false
  end.

Definition transformed (df : DataFrame F) (c : string) : bool :=
  column_is (@is_number F) df c || column_is (@is_object F) df c.

(** The state a run leaves once [model.fit], and then [model.predict],
    have been called on the pipeline [p]. *)
Definition after_fit (s : state) (p : Pipeline) : state :=
  mkState (uploaded_data s) (Some p) (np_random s) (calls s ++ [called_fit])%list.

Definition after_predict (s : state) (p : Pipeline) : state :=
  mkState (uploaded_data s) (Some p) (np_random s)
          ((calls s ++ [called_fit]) ++ [called_predict])%list.

Definition no_data_message : string := "Error: No data uploaded. Please upload a dataset.".
Definition no_target_message : string := "Error: No target variable selected.".
Definition no_features_message : string := "Error: No features selected for training.".

Definition train_model (n_clicks : option nat) (target : option string)
    (selected_features : option (list string)) : M string :=
  match n_clicks with
  | None => ret "Click 'Train Model' to start training."
  | Some _ =>
      d <- get_uploaded_data ;;
      match d with
      | None => ret no_data_message
      | Some df =>
          match target with
          | Some target' =>
              if negb (truthy_str target) then ret no_target_message
              else
                match selected_features with
                | Some (f :: fs) =>
                    try_except
                      (r2 <- train_body df target' (f :: fs) ;;
                       ret ("Model trained successfully! R^2 score: " ++ format_4f r2))
                      (fun e => ret ("Error during training: " ++ str e))
                | _ => ret no_features_message
                end
          | None => ret no_target_message
          end
      end
  end.

(** *** Predict (lines 253-283) *)

(** scikit-learn's [ColumnTransformer.get_feature_names_out()], the names of
    the columns that the fitted preprocessing step puts out: the 'num'
    columns, then one column per category of each 'cat' column.  [app.py]
    never calls it; it is here to be compared with what line 275 reads. *)
Definition get_feature_names_out (ct : ColumnTransformer) : option (list string) :=
  match transformers_ ct with
  | None => None
  | Some (_, cf) =>
      Some (app (map (fun n => "num__" ++ n) (numeric_features ct))
                (flat_map (fun nfc => map (fun c => "cat__" ++ fst nfc ++ "_" ++ c)
                                          (snd (snd nfc))) cf))
  end.

(** One entry of [processed_data]: the float, or the string itself. *)
Definition process (value : string) : F + string :=
  match float value with
  | Some x => inl x
  | None => inr value
  end.

(** [pd.DataFrame([processed_data], columns=selected_features)]: one row; a
    float gives a float64 column, a string an object column. *)
Definition cell_column (v : F + string) : Series F :=
  match v with
  | inl x => Float64 [x]
  | inr w => Object [Some w]
  end.

Definition row_frame (processed_data : list (F + string)) (selected_features : list string)
  : DataFrame F :=
  mkFrame 1 (combine selected_features (map cell_column processed_data)).

(** [set(a) - set(b)], iterated in some order; the order chosen here is
    that of [a] (what is done with it below does not depend on it). *)
Definition set_difference (a b : list string) : list string :=
  nodup string_dec (filter (fun x => negb (mem x b)) a).

(** Lines 272-278: the frame handed to [model.predict]. *)
Definition prediction_frame (processed_data : list (F + string))
    (selected_features : list string) : M (DataFrame F) :=
  let input_df := row_frame processed_data selected_features in
  let input_df := get_dummies input_df in
  names <- model_feature_names_in_ ;;
  let missing_cols := set_difference names (columns input_df) in
  let input_df := fold_left (@setitem_zero F) missing_cols input_df in
  names' <- model_feature_names_in_ ;;
  lift (getitem_list input_df names').

Definition make_prediction (n_clicks : option nat) (input_values : option string)
    (selected_features : option (list string)) : M string :=
  match n_clicks, input_values, selected_features with
  | Some _, Some input_values', Some (f :: fs) =>
      if negb (truthy_str input_values)
      then ret "Please enter feature values and select features before predicting."
      else
        try_except
          (let input_data := split comma input_values' in
           let processed_data := map process input_data in
           if negb (length processed_data =? length (f :: fs))%nat
           then ret ("Error: Expected " ++ str_nat (length (f :: fs))
                     ++ " features, but got " ++ str_nat (length processed_data) ++ ".")
           else
             input_df <- prediction_frame processed_data (f :: fs) ;;
             prediction <- model_predict input_df ;;
             match prediction with
             | p0 :: _ => ret ("Prediction: " ++ str_float p0)
             | [] => raise (LibraryError "index 0 is out of bounds for axis 0 with size 0")
             end)
          (fun e => ret ("Error: " ++ str e))
  | _, _, _ => ret "Please enter feature values and select features before predicting."
  end.
End App.

(** ** A small executable library

    An instance of [Library] on which the callbacks run: floats are the
    integers and NaN, base64 is a substitution of two characters, [read_csv]
    reads comma-separated integers, booleans
    and strings, the split is the unshuffled cut, scaling is the identity
    and the regressor adds up a row.  It stands in for pandas, scikit-learn
    and xgboost where a statement has to be run on an input; the failures it
    has are failures the libraries have (an empty file, a split that leaves
    no training row, a NaN label, a NaN score target, a missing key). *)

Module Demo.

Local Open Scope string_scope.

Definition num : Type := option Z.   (* [None] is NaN *)

Definition parse_Z (s : string) : option Z := option_map Z.of_int (NilZero.int_of_string s).

Definition print_Z (z : Z) : string := NilZero.string_of_int (Z.to_int z).

Definition print_num (x : num) : string :=
  match x with
  | Some z => print_Z z ++ ".0"
  | None => "nan"
  end.

Definition parse_num (s : string) : option num :=
  if String.eqb s "nan" then Some None else option_map Some (parse_Z s).

Definition parse_bool (s : string) : option bool :=
  if String.eqb s "True" then Some true
  else if String.eqb s "False" then Some false
  else None.

Fixpoint all_some {A} (l : list (option A)) : option (list A) :=
  match l with
  | [] => Some []
  | Some a :: l' => option_map (cons a) (all_some l')
  | None :: _ => None
  end.

Definition blank_or_Z (s : string) : option num :=
  if String.eqb s EmptyString then Some None else option_map Some (parse_Z s).

(** The dtype pandas infers for a CSV column, on the cells this reader knows. *)
Definition infer (cells : list string) : Series num :=
  match all_some (map parse_Z cells) with
  | Some zs => Int64 zs
  | None =>
      match all_some (map blank_or_Z cells) with
      | Some xs => Float64 xs
      | None =>
          match all_some (map parse_bool cells) with
          | Some bs => Bool bs
          | None => Object (map (fun c => if String.eqb c EmptyString then None else Some c) cells)
          end
      end
  end.

Definition newline : ascii := Ascii.ascii_of_nat 10.

(** The stand-in for base64, an encoding without commas: [;] for a comma
    and [|] for a line break. *)
Fixpoint demo_b64decode (s : string) : string :=
  match s with
  | EmptyString => EmptyString
  | String c rest =>
      String (if Ascii.eqb c ";"%char then comma
              else if Ascii.eqb c "|"%char then newline else c)
             (demo_b64decode rest)
  end.

Definition csv_lines (text : string) : list string :=
  filter (fun l => negb (String.eqb l EmptyString)) (split newline text).

Definition demo_read_csv (text : string) : result (DataFrame num) :=
  match csv_lines text with
  | [] => Raise (LibraryError "No columns to parse from file")
  | header :: rows =>
      let cells := map (split comma) rows in
      let names := split comma header in
      Return (mkFrame (length rows)
                (map (fun ni => (fst ni, infer (map (fun r => nth (snd ni) r EmptyString) cells)))
                     (combine names (seq 0 (length names)))))
  end.

(** [n_test = ceil(test_size * n)], [n_train = n - n_test]; the first
    [n_train] positions train. *)
Definition demo_split (n : nat) (test_size : Q) (g : nat)
  : result (list nat * list nat) * nat :=
  let n_test := Z.to_nat (Qceiling (test_size * inject_Z (Z.of_nat n))) in
  let n_train := (n - n_test)%nat in
  (if (n_train =? 0)%nat
   then Raise (ValueError "the resulting train set will be empty")
   else Return (seq 0 n_train, seq n_train n_test),
   S g).

Definition as_floats (s : Series num) : result (list num) :=
  match s with
  | Int64 xs => Return (map Some xs)
  | Float64 xs => Return xs
  | Bool xs => Return (map (fun b : bool => Some (if b then 1 else 0)%Z) xs)
  | _ => Raise (ValueError "could not convert string to float")
  end.

Definition strings_of (ls : list label) : list string :=
  flat_map (fun l => match l with LStr s => [s] | _ => [] end) ls.

Definition demo_cat_fit (ls : list label) : result (string * list string) :=
  match strings_of ls with
  | [] => Raise (ValueError "no category")
  | s :: ss => Return (s, nodup string_dec (s :: ss))
  end.

Definition has_nan (s : Series num) : bool :=
  match s with
  | Float64 xs => existsb (fun x => match x with None => true | Some _ => false end) xs
  | _ => false
  end.

Definition row_count (X : list (list num)) : nat :=
  match X with
  | [] => 0
  | c :: _ => length c
  end.

Definition row_sum (X : list (list num)) (i : nat) : num :=
  Some (fold_left (fun acc c => match nth i c None with Some z => acc + z | None => acc end)%Z
                  X 0%Z).

(** The toy regressor: a booster is the number of rows it was fitted on. *)
Definition demo_xgb_fit (p : XGBParams) (X : list (list num)) (y : Series num) : result nat :=
  match X with
  | [] => Raise (LibraryError "0 feature is supplied")
  | _ =>
      if has_nan y then Raise (LibraryError "Label contains NaN, infinity or a value too large")
      else Return (row_count X)
  end.

Definition demo_xgb_predict (b : nat) (X : list (list num)) : result (list num) :=
  Return (map (row_sum X) (seq 0 (row_count X))).

Definition demo_r2_score (y_true : Series num) (y_pred : list num) : result num :=
  if has_nan y_true then Raise (ValueError "Input contains NaN.")
  else Return (Some 1%Z).

Definition demo_corr (df : DataFrame num) : list (string * list (string * num)) :=
  map (fun c => (c, map (fun r => (r, Some 1%Z)) (columns df))) (columns df).

#[local] Instance library : Library := {|
  F := num;
  isnan := fun x => match x with None => true | Some _ => false end;
  zero := Some 0%Z;
  one := Some 1%Z;
  float := parse_num;
  str_float := print_num;
  format_4f := fun x => print_num x ++ "000";
  b64decode := fun s => Return (demo_b64decode s);
  decode_utf8 := fun s => Return s;
  read_csv := demo_read_csv;
  RandomState := nat;
  seeded := Z.to_nat;
  shuffle_split := demo_split;
  NumFitted := unit;
  num_fit := fun _ => Return tt;
  num_transform := fun _ cols => rmap as_floats cols;
  cat_fit := demo_cat_fit;
  Booster := nat;
  xgb_fit := demo_xgb_fit;
  xgb_predict := demo_xgb_predict;
  r2_score := demo_r2_score;
  Figure := list (string * num);
  group_mean := fun _ _ => Return [];
  corr := demo_corr;
  abs_sort_descending := fun s => s;
  px_bar := fun data _ => Return data
|}.

Definition start : state := mkState None None (0%nat : @RandomState library) [].

(** A shop's table: [flag] is read as a boolean column, [color] as an
    object column, and [cost] has a blank, so it is a float column with a
    NaN in its second row. *)
Definition shop_csv : string :=
  "size;flag;color;price;cost|1;True;red;10;5|2;False;blue;20;|3;True;red;30;7|4;True;blue;40;8|5;False;red;50;9".

Definition loaded : state :=
  snd (handle_upload (Some ("data:text/csv;base64," ++ shop_csv)) (Some "shop.csv") start).

Definition shop : DataFrame num :=
  Eval vm_compute in
    match uploaded_data loaded with
    | Some df => df
    | None => mkFrame 0 []
    end.

Definition trained : state :=
  snd (train_model (Some 1%nat) (Some "price") (Some ["size"; "color"]) loaded).

(** The state after a training whose fit raises ([cost] has a NaN among the
    training rows), and a table without numeric columns. *)
Definition broken : state :=
  snd (train_model (Some 2%nat) (Some "cost") (Some ["size"]) trained).

Definition words_csv : string := "color;fruit|red;apple|blue;plum".

Definition words_loaded : state :=
  snd (handle_upload (Some ("data:text/csv;base64," ++ words_csv)) (Some "words.csv") start).

Definition words : DataFrame num :=
  Eval vm_compute in
    match uploaded_data words_loaded with
    | Some df => df
    | None => mkFrame 0 []
    end.

End Demo.

(** * Properties *)

Section Properties.
Context {L : Library}.
Local Open Scope string_scope.

(** ** Upload *)

Lemma handle_upload_returns (s : state) (contents filename : option string) :
  exists msg, fst (handle_upload contents filename s) = Return msg.
Proof.
  unfold handle_upload.
  destruct contents as [c|]; [|eexists; reflexivity].
  destruct (truthy_str (Some c)); [|eexists; reflexivity].
  unfold try_except, bind, lift, set_uploaded_data, ret.
  destruct (parse_upload c); eexists; reflexivity.
Qed.

(** C8. An upload whose contents fail to split, decode or parse returns the
    message "Error reading file: ..." and leaves the whole state, the
    dataset included, as it was; an upload that parses returns the
    "Uploaded file" message and replaces the dataset by the parsed frame,
    leaving the model alone. *)
Theorem handle_upload_replaces_or_keeps (s : state) (contents : string)
    (filename : option string) :
  truthy_str (Some contents) = true ->
  match parse_upload contents with
  | Raise e =>
      handle_upload (Some contents) filename s
      = (Return ("Error reading file: " ++ str e), s)
  | Return df =>
      handle_upload (Some contents) filename s
      = (Return ("Uploaded file: " ++ str_opt filename
                 ++ " (Rows: " ++ str_nat (nrows df)
                 ++ ", Columns: " ++ str_nat (length (cols df)) ++ ")"),
         mkState (Some df) (model s) (np_random s) (calls s))
  end.
Proof.
  intros Hc. unfold handle_upload. rewrite Hc.
  unfold try_except, bind, lift, set_uploaded_data, ret.
  destruct (parse_upload contents); reflexivity.
Qed.

(** ** Train: preconditions *)

(** C6. A train call (the button has been clicked) with no dataset loaded,
    with the target unset, or with no feature selected returns the message
    of the first of these that fails and leaves the state as it was, the
    log of model calls included: nothing is fitted.  The three messages
    differ. *)
Theorem train_model_preconditions (s : state) (n : nat) (target : option string)
    (selected_features : option (list string)) :
  uploaded_data s = None \/ truthy_str target = false \/ truthy_list selected_features = false ->
  train_model (Some n) target selected_features s
  = (Return (match uploaded_data s with
             | None => no_data_message
             | Some _ => if truthy_str target
                         then no_features_message
                         else no_target_message
             end), s)
  /\ no_data_message <> no_target_message
  /\ no_data_message <> no_features_message
  /\ no_target_message <> no_features_message.
Proof.
  intros H. split; [|repeat split; discriminate].
  unfold train_model, bind, get_uploaded_data, ret.
  destruct (uploaded_data s) as [df|]; [|reflexivity].
  destruct target as [t|]; [|reflexivity].
  destruct (truthy_str (Some t)) eqn:Ht; [|reflexivity].
  cbn [negb].
  destruct selected_features as [[|f fs]|]; try reflexivity.
  destruct H as [H|[H|H]]; discriminate.
Qed.

(** ** Predict: the count check *)

(** C5. A predict call with text and a non-empty selection whose number of
    comma-separated tokens is not the number of selected features returns
    "Error: Expected <features> features, but got <tokens>." and leaves the
    state as it was, the log of model calls included: the model is not
    read, whatever it is. *)
Theorem make_prediction_count_mismatch (s : state) (n : nat) (input_values : string)
    (selected_features : list string) :
  truthy_str (Some input_values) = true ->
  selected_features <> [] ->
  length (split comma input_values) <> length selected_features ->
  make_prediction (Some n) (Some input_values) (Some selected_features) s
  = (Return ("Error: Expected " ++ str_nat (length selected_features)
             ++ " features, but got " ++ str_nat (length (split comma input_values)) ++ "."),
     s).
Proof.
  intros Hin Hsf Hlen. unfold make_prediction.
  destruct selected_features as [|f fs]; [congruence|].
  rewrite Hin. cbn [negb]. unfold try_except.
  rewrite length_map.
  destruct (Nat.eqb_spec (length (split comma input_values)) (length (f :: fs))) as [E|E];
    [contradiction|].
  reflexivity.
Qed.

(** ** Selection surfaces and charts *)

Lemma unique_column (l : list (string * Series F)) (c : string) (a b : Series F) :
  NoDup (map fst l) -> In (c, a) l -> In (c, b) l -> a = b.
Proof.
  induction l as [|[n x] l IH]; cbn; intros Hnd Ha Hb; [contradiction|].
  inversion Hnd as [|? ? Hn Hnd']; subst.
  destruct Ha as [Ha|Ha], Hb as [Hb|Hb].
  - congruence.
  - inversion Ha; subst. exfalso. apply Hn. apply (in_map fst) in Hb. exact Hb.
  - inversion Hb; subst. exfalso. apply Hn. apply (in_map fst) in Ha. exact Ha.
  - auto.
Qed.

Lemma in_selected_columns (include : Series F -> bool) (df : DataFrame F) (c : string) :
  In c (columns (select_dtypes include df)) <->
  exists x, In (c, x) (cols df) /\ include x = true.
Proof.
  unfold columns, select_dtypes; cbn. rewrite in_map_iff. split.
  - intros [[n x] [E H]]. cbn in E; subst. apply filter_In in H. exists x. exact H.
  - intros [x [H E]]. exists (c, x). split; [reflexivity|]. apply filter_In. auto.
Qed.

(** The target dropdown offers the numeric columns, in the order of the
    dataset, and nothing when no dataset is loaded. *)
Lemma update_target_dropdown_numeric (s : state) :
  update_target_dropdown s
  = (Return (match uploaded_data s with
             | Some df => map option_of (map fst (filter (fun c => is_number (snd c)) (cols df)))
             | None => []
             end), s).
Proof.
  unfold update_target_dropdown, bind, get_uploaded_data.
  destruct (uploaded_data s); reflexivity.
Qed.

Lemma get_options_no_data (s : state) :
  uploaded_data s = None -> get_options s = (Return [], s).
Proof.
  intros H. unfold get_options, bind, get_uploaded_data. rewrite H. reflexivity.
Qed.

(** C9. The checkboxes do not offer a boolean column of the loaded dataset:
    [get_options] lists the numeric columns and then the object and
    category columns, and a column of any other dtype is in neither. *)
Theorem get_options_omits_boolean_column (s : state) (df : DataFrame F) (c : string)
    (xs : list bool) :
  uploaded_data s = Some df ->
  NoDup (columns df) ->
  In (c, Bool xs) (cols df) ->
  exists options,
    get_options s = (Return options, s)
    /\ In c (columns df)
    /\ ~ In c (map snd options).
Proof.
  intros Hd Hnd Hc.
  unfold get_options, bind, get_uploaded_data. rewrite Hd.
  eexists. split; [reflexivity|]. split.
  - unfold columns. apply (in_map fst) in Hc. exact Hc.
  - rewrite map_app, !map_map. cbn [option_of snd]. rewrite !map_id.
    intros H. apply in_app_or in H.
    destruct H as [H|H]; apply in_selected_columns in H; destruct H as [x [Hx E]];
      rewrite (@unique_column _ _ _ _ Hnd Hx Hc) in E; discriminate.
Qed.

(** C4. The chart callback has no handler: with a dataset loaded and a
    target given, a categorical choice that names no column of the dataset
    makes [groupby] raise a [KeyError], and the callback raises it to its
    caller. *)
Theorem update_barcharts_raises (s : state) (df : DataFrame F) (target categorical_var : string) :
  uploaded_data s = Some df ->
  truthy_str (Some categorical_var) = true ->
  lookup categorical_var (cols df) = None ->
  update_barcharts (Some target) (Some categorical_var) s
  = (Raise (KeyError categorical_var), s).
Proof.
  intros Hd Ht Hl.
  unfold update_barcharts, bind, get_uploaded_data. rewrite Hd, Ht.
  unfold lift, groupby_mean, getitem. rewrite Hl. reflexivity.
Qed.

End Properties.

Section Training.
Context {L : Library}.
Local Open Scope string_scope.

(** ** Train: what a run of the [try] body does *)

Lemma train_body_run (df : DataFrame F) (target : string) (selected_features : list string)
    (s : state) :
  train_body df target selected_features s =
  match slicing_and_splitting df target selected_features with
  | Raise e => (Raise e, s)
  | Return (X, (X_train, X_test, y_train, y_test)) =>
      let fitted := pipeline_fit (new_pipeline X) X_train y_train in
      match fst fitted with
      | Raise e => (Raise e, after_fit s (snd fitted))
      | Return _ =>
          match rbind (pipeline_predict (snd fitted) X_test) (r2_score y_test) with
          | Raise e => (Raise e, after_predict s (snd fitted))
          | Return r2 => (Return r2, after_predict s (snd fitted))
          end
      end
  end.
Proof.
  unfold train_body, slicing_and_splitting, bind, lift.
  destruct (getitem_list df selected_features) as [X|e]; [|reflexivity].
  destruct (getitem df target) as [y|e]; [|reflexivity].
  unfold train_test_split, rbind. cbn [fst snd].
  destruct (fst (shuffle_split (nrows X) (2 # 10) (seeded 42))) as [[tr te]|e]; [|reflexivity].
  cbn [fst snd].
  unfold set_model, model_fit, model_predict, bind, get_model, log, set_model, lift, ret.
  cbn [model uploaded_data np_random calls fst snd].
  change (mkPipeline _ xgb_params None) with (new_pipeline X).
  destruct (pipeline_fit (new_pipeline X) (iloc X tr) (series_take tr y)) as [[u|e] p];
    cbn [fst snd]; [|reflexivity].
  destruct (pipeline_predict p (iloc X te)) as [y_pred|e]; cbn [rbind]; [|reflexivity].
  destruct (r2_score (series_take te y) y_pred); reflexivity.
Qed.

(** The score of a run, or the exception it ends with, is a function of
    the dataset, the target and the selection: the model in place, numpy's
    global generator and the log play no part. *)
Lemma train_body_result_state_independent (df : DataFrame F) (target : string)
    (selected_features : list string) (s s' : state) :
  fst (train_body df target selected_features s)
  = fst (train_body df target selected_features s').
Proof.
  rewrite !train_body_run.
  destruct (slicing_and_splitting df target selected_features)
    as [[X [[[X_train X_test] y_train] y_test]]|e]; [|reflexivity].
  cbv zeta.
  destruct (fst (pipeline_fit (new_pipeline X) X_train y_train)); [|reflexivity].
  destruct (rbind _ _); reflexivity.
Qed.

Lemma train_body_keeps_dataset (df : DataFrame F) (target : string)
    (selected_features : list string) (s : state) :
  uploaded_data (snd (train_body df target selected_features s)) = uploaded_data s.
Proof.
  rewrite train_body_run.
  destruct (slicing_and_splitting df target selected_features)
    as [[X [[[X_train X_test] y_train] y_test]]|e]; [|reflexivity].
  cbv zeta.
  destruct (fst (pipeline_fit (new_pipeline X) X_train y_train)); [|reflexivity].
  destruct (rbind _ _); reflexivity.
Qed.

(** What [train_model] returns and leaves once its preconditions hold. *)
Lemma train_model_run (df : DataFrame F) (n : nat) (target : string)
    (selected_features : list string) (s : state) :
  uploaded_data s = Some df ->
  truthy_str (Some target) = true ->
  selected_features <> [] ->
  train_model (Some n) (Some target) (Some selected_features) s
  = (match fst (train_body df target selected_features s) with
     | Return r2 => Return ("Model trained successfully! R^2 score: " ++ format_4f r2)
     | Raise e => Return ("Error during training: " ++ str e)
     end,
     snd (train_body df target selected_features s)).
Proof.
  intros Hd Ht Hsf. unfold train_model, bind, get_uploaded_data. rewrite Hd, Ht.
  destruct selected_features as [|f fs]; [congruence|].
  cbn [negb]. unfold try_except, bind, ret.
  destruct (train_body df target (f :: fs) s) as [[r2|e] s']; reflexivity.
Qed.

Lemma train_model_keeps_dataset (n : option nat) (target : option string)
    (selected_features : option (list string)) (s : state) :
  uploaded_data (snd (train_model n target selected_features s)) = uploaded_data s.
Proof.
  destruct n as [n|]; [|reflexivity].
  destruct (uploaded_data s) as [df|] eqn:Hd;
    [|unfold train_model, bind, get_uploaded_data; rewrite Hd; cbn; exact Hd].
  destruct target as [t|];
    [|unfold train_model, bind, get_uploaded_data; rewrite Hd; cbn; exact Hd].
  destruct (truthy_str (Some t)) eqn:Ht;
    [|unfold train_model, bind, get_uploaded_data; rewrite Hd, Ht; cbn; exact Hd].
  destruct selected_features as [[|f fs]|];
    try (unfold train_model, bind, get_uploaded_data; rewrite Hd, Ht; cbn; exact Hd).
  rewrite (@train_model_run df n t (f :: fs) s Hd Ht) by discriminate.
  cbn [snd]. rewrite train_body_keeps_dataset. exact Hd.
Qed.

Lemma train_model_message_depends_on_dataset (n n' : nat) (target : option string)
    (selected_features : option (list string)) (s s' : state) :
  uploaded_data s = uploaded_data s' ->
  fst (train_model (Some n) target selected_features s)
  = fst (train_model (Some n') target selected_features s').
Proof.
  intros E.
  destruct (uploaded_data s) as [df|] eqn:Hd;
    [|unfold train_model, bind, get_uploaded_data; rewrite <- E, Hd; reflexivity].
  destruct target as [t|];
    [|unfold train_model, bind, get_uploaded_data; rewrite <- E, Hd; reflexivity].
  destruct (truthy_str (Some t)) eqn:Ht;
    [|unfold train_model, bind, get_uploaded_data; rewrite <- E, Hd, Ht; reflexivity].
  destruct selected_features as [[|f fs]|];
    try (unfold train_model, bind, get_uploaded_data; rewrite <- E, Hd, Ht; reflexivity).
  rewrite (@train_model_run df n t (f :: fs) s Hd Ht) by discriminate.
  rewrite (@train_model_run df n' t (f :: fs) s' (eq_sym E) Ht) by discriminate.
  cbn [fst]. rewrite (train_body_result_state_independent df t (f :: fs) s s'). reflexivity.
Qed.

(** The state after a train call whose preconditions hold: untouched when
    the slicing or the split raises, and otherwise holding the pipeline of
    this call as [fit] left it. *)
Lemma train_model_model_after (s : state) (df : DataFrame F) (n : nat) (target : string)
    (selected_features : list string) :
  uploaded_data s = Some df ->
  truthy_str (Some target) = true ->
  selected_features <> [] ->
  match slicing_and_splitting df target selected_features with
  | Raise e =>
      train_model (Some n) (Some target) (Some selected_features) s
      = (Return ("Error during training: " ++ str e), s)
  | Return (X, (X_train, _, y_train, _)) =>
      model (snd (train_model (Some n) (Some target) (Some selected_features) s))
      = Some (snd (pipeline_fit (new_pipeline X) X_train y_train))
  end.
Proof.
  intros Hd Ht Hsf.
  rewrite (@train_model_run df n target selected_features s Hd Ht Hsf).
  cbn [fst snd]. rewrite train_body_run.
  destruct (slicing_and_splitting df target selected_features)
    as [[X [[[X_train X_test] y_train] y_test]]|e]; [|reflexivity].
  cbv zeta.
  destruct (fst (pipeline_fit (new_pipeline X) X_train y_train)); [|reflexivity].
  destruct (rbind _ _); reflexivity.
Qed.

Lemma train_model_returns (n : option nat) (target : option string)
    (selected_features : option (list string)) (s : state) :
  exists msg, fst (train_model n target selected_features s) = Return msg.
Proof.
  unfold train_model, bind, get_uploaded_data.
  destruct n as [n|]; [|eexists; reflexivity].
  destruct (uploaded_data s) as [df|]; [|eexists; reflexivity].
  destruct target as [t|]; [|eexists; reflexivity].
  destruct (negb (truthy_str (Some t))); [eexists; reflexivity|].
  destruct selected_features as [[|f fs]|]; try (eexists; reflexivity).
  unfold try_except, bind, ret.
  destruct (train_body df t (f :: fs) s) as [[r2|e] s']; eexists; reflexivity.
Qed.

(** The split is asked for with [test_size=0.2] and seed 42 and does not
    touch numpy's global generator; the regressor is built with the fixed
    arguments of line 232. *)
Lemma seeded_split_keeps_state (X : DataFrame F) (y : Series F) (test_size : Q) (seed : Z)
    (s : state) :
  snd (train_test_split X y test_size (Some seed) s) = s.
Proof.
  unfold train_test_split. cbn [fst snd].
  destruct (fst (shuffle_split (nrows X) test_size (seeded seed))) as [[tr te]|e]; reflexivity.
Qed.

Lemma new_pipeline_regressor (X : DataFrame F) :
  regressor (new_pipeline X) = mkXGB 200 3 (3 # 10) 1 (Some 42%Z).
Proof. reflexivity. Qed.

(** C7. Training a second time, right after a first, with the same target
    and selection returns the same message, hence the same score in it; and
    the score of a run (or the exception that ends it) is the same from any
    two states, whatever model and whatever state of numpy's global
    generator they hold: the split is made with [test_size=0.2] and the
    seed 42, without touching the global generator, and the regressor is
    built with constant arguments and the seed 42. *)
Theorem training_is_repeatable (s : state) (n1 n2 : nat) (target : option string)
    (selected_features : option (list string)) :
  fst (train_model (Some n2) target selected_features
         (snd (train_model (Some n1) target selected_features s)))
  = fst (train_model (Some n1) target selected_features s)
  /\ (forall (df : DataFrame F) (t : string) (fs : list string) (s' : state),
        fst (train_body df t fs s') = fst (train_body df t fs s))
  /\ (forall (X : DataFrame F) (y : Series F) (s' : state),
        snd (train_test_split X y (2 # 10) (Some 42%Z) s') = s')
  /\ (forall X : DataFrame F,
        regressor (new_pipeline X) = mkXGB 200 3 (3 # 10) 1 (Some 42%Z)).
Proof.
  split; [|split; [|split]].
  - apply train_model_message_depends_on_dataset. apply train_model_keeps_dataset.
  - intros. apply train_body_result_state_independent.
  - intros. apply seeded_split_keeps_state.
  - intros. apply new_pipeline_regressor.
Qed.


End Training.

Section Dropping.
Context {L : Library}.
Local Open Scope string_scope.

(** ** Train: columns that are neither numeric nor object *)

Lemma rmap_ext_in {A B} (f g : A -> result B) (l : list A) :
  (forall a, In a l -> f a = g a) -> rmap f l = rmap g l.
Proof.
  induction l as [|a l IH]; intros H; [reflexivity|].
  cbn. rewrite (H a (or_introl eq_refl)). rewrite IH; [reflexivity|].
  intros b Hb. apply H. right. exact Hb.
Qed.

Lemma select_columns_agree (names : list string) (X X' : DataFrame F) :
  agree names X X' -> select_columns names X = select_columns names X'.
Proof.
  intros H. apply rmap_ext_in. intros n Hn. rewrite (H n Hn). reflexivity.
Qed.

Lemma cat_fit_columns_agree (names : list string) (X X' : DataFrame F) :
  agree names X X' -> cat_fit_columns names X = cat_fit_columns names X'.
Proof.
  intros H. apply rmap_ext_in. intros n Hn. rewrite (H n Hn). reflexivity.
Qed.

Lemma cat_fit_columns_names (names : list string) (X : DataFrame F) (cf : CatFitted) :
  cat_fit_columns names X = Return cf -> map fst cf = names.
Proof.
  unfold cat_fit_columns. revert cf.
  induction names as [|n names IH]; intros cf H; cbn in H.
  - inversion H. reflexivity.
  - destruct (lookup n (cols X)) as [x|]; [|discriminate].
    cbn in H. destruct (cat_fit (labels x)) as [fc|]; [|discriminate].
    cbn in H. destruct (rmap _ names) as [cf'|] eqn:E; [|discriminate].
    cbn in H. inversion H; subst. cbn. f_equal. apply IH. reflexivity.
Qed.

Lemma cat_transform_agree (cf : CatFitted) (X X' : DataFrame F) :
  agree (map fst cf) X X' -> cat_transform cf X = cat_transform cf X'.
Proof.
  intros H. unfold cat_transform. f_equal.
  apply rmap_ext_in. intros nfc Hn.
  rewrite (H (fst nfc) (in_map fst _ _ Hn)). reflexivity.
Qed.

Lemma agree_app (a b : list string) (X X' : DataFrame F) :
  agree (a ++ b) X X' -> agree a X X' /\ agree b X X'.
Proof.
  intros H. split; intros n Hn; apply H; apply in_or_app; auto.
Qed.

Lemma ct_fit_transform_agree (ct ct' : ColumnTransformer) (X X' : DataFrame F) :
  numeric_features ct = numeric_features ct' ->
  categorical_features ct = categorical_features ct' ->
  agree (numeric_features ct ++ categorical_features ct) X X' ->
  ct_fit_transform ct X = ct_fit_transform ct' X'.
Proof.
  intros En Ec H. apply agree_app in H. destruct H as [Hn Hc].
  unfold ct_fit_transform. rewrite <- En, <- Ec.
  rewrite (select_columns_agree Hn), (cat_fit_columns_agree Hc).
  destruct (select_columns (numeric_features ct) X') as [ncols|]; [|reflexivity].
  cbn [rbind]. destruct (num_fit ncols) as [nf|]; [|reflexivity].
  cbn [rbind]. destruct (num_transform nf ncols) as [Xn|]; [|reflexivity].
  cbn [rbind].
  destruct (cat_fit_columns (categorical_features ct) X') as [cf|] eqn:E; [|reflexivity].
  cbn [rbind]. apply cat_fit_columns_names in E.
  rewrite (@cat_transform_agree cf X X') by (rewrite E; exact Hc).
  reflexivity.
Qed.

Lemma pipeline_fit_agree (p : Pipeline) (X X' : DataFrame F) (y : Series F) :
  agree (numeric_features (preprocessor p) ++ categorical_features (preprocessor p)) X X' ->
  fst (pipeline_fit p X y) = fst (pipeline_fit p X' y)
  /\ same_fit (snd (pipeline_fit p X y)) (snd (pipeline_fit p X' y))
  /\ (forall u, fst (pipeline_fit p X y) = Return u ->
                fitted_names_ok (snd (pipeline_fit p X y))).
Proof.
  intros H. unfold pipeline_fit.
  rewrite (@ct_fit_transform_agree
             (mkCT (numeric_features (preprocessor p)) (categorical_features (preprocessor p))
                   (Some (columns X)) (transformers_ (preprocessor p)))
             (mkCT (numeric_features (preprocessor p)) (categorical_features (preprocessor p))
                   (Some (columns X')) (transformers_ (preprocessor p)))
             X X' eq_refl eq_refl H).
  destruct (ct_fit_transform _ X') as [[[nf cf] Xt]|e] eqn:E.
  - cbn [fst snd]. destruct (xgb_fit (regressor p) Xt y) as [b|e'].
    + cbn [fst snd]. split; [reflexivity|]. split; [repeat split|].
      intros u _ nf' cf' Hs. cbn in Hs. inversion Hs; subst. cbn.
      unfold ct_fit_transform in E. cbn [numeric_features categorical_features] in E.
      destruct (select_columns _ X') as [ncols|]; [|discriminate]. cbn [rbind] in E.
      destruct (num_fit ncols) as [nf0|]; [|discriminate]. cbn [rbind] in E.
      destruct (num_transform nf0 ncols) as [Xn|]; [|discriminate]. cbn [rbind] in E.
      destruct (cat_fit_columns _ X') as [cf0|] eqn:E0; [|discriminate]. cbn [rbind] in E.
      destruct (cat_transform cf0 X'); [|discriminate]. cbn [rbind] in E.
      inversion E; subst. apply (cat_fit_columns_names _ _ E0).
    + cbn [fst snd]. split; [reflexivity|]. split; [repeat split|]. intros; discriminate.
  - cbn [fst snd]. split; [reflexivity|]. split; [repeat split|]. intros; discriminate.
Qed.

Lemma pipeline_predict_agree (p p' : Pipeline) (X X' : DataFrame F) :
  same_fit p p' ->
  fitted_names_ok p ->
  agree (numeric_features (preprocessor p) ++ categorical_features (preprocessor p)) X X' ->
  pipeline_predict p X = pipeline_predict p' X'.
Proof.
  intros (En & Ec & Et & Er & Eb) Hok H. apply agree_app in H. destruct H as [Hn Hc].
  unfold pipeline_predict, ct_transform. rewrite <- Et, <- Eb, <- En.
  destruct (transformers_ (preprocessor p)) as [[nf cf]|] eqn:E; [|reflexivity].
  rewrite (select_columns_agree Hn).
  rewrite (@cat_transform_agree cf X X') by (rewrite (Hok nf cf E); exact Hc).
  reflexivity.
Qed.

Lemma mem_In (n : string) (l : list string) : mem n l = true <-> In n l.
Proof.
  unfold mem. rewrite existsb_exists. split.
  - intros [x [Hx E]]. apply String.eqb_eq in E. subst. exact Hx.
  - intros H. exists n. split; [exact H|apply String.eqb_refl].
Qed.

Lemma lookup_in (c : string) (l : list (string * Series F)) :
  In c (map fst l) -> exists x, lookup c l = Some x.
Proof.
  induction l as [|[n x] l IH]; cbn; [contradiction|].
  intros H. destruct (String.eqb_spec c n) as [E|E]; [eexists; reflexivity|].
  destruct H as [H|H]; [congruence|]. apply IH. exact H.
Qed.

Lemma lookup_iloc (n : string) (X : DataFrame F) (idx : list nat) :
  lookup n (cols (iloc X idx)) = option_map (series_take idx) (lookup n (cols X)).
Proof.
  unfold iloc. cbn [cols]. induction (cols X) as [|[m x] l IH]; [reflexivity|].
  cbn. destruct (String.eqb n m); [reflexivity|exact IH].
Qed.

Lemma agree_iloc (names : list string) (X X' : DataFrame F) (idx : list nat) :
  agree names X X' -> agree names (iloc X idx) (iloc X' idx).
Proof.
  intros H n Hn. rewrite !lookup_iloc, (H n Hn). reflexivity.
Qed.

(** [df[names]], when it returns: the columns asked for, each as the
    dataset holds it. *)
Lemma getitem_list_spec (df : DataFrame F) (names : list string) (X : DataFrame F) :
  getitem_list df names = Return X ->
  nrows X = nrows df
  /\ columns X = names
  /\ (forall n, In n names -> lookup n (cols X) = lookup n (cols df))
  /\ (forall include, columns (select_dtypes include X) = filter (column_is include df) names).
Proof.
  unfold getitem_list, columns, select_dtypes.
  destruct (rmap _ names) as [cs|] eqn:E; [|discriminate].
  cbn [rbind]. intros H. inversion H; subst. cbn [nrows cols]. clear H.
  split; [reflexivity|].
  revert cs E. induction names as [|a names IH]; intros cs E; cbn in E.
  - inversion E; subst. cbn. repeat split. intros n [].
  - unfold getitem in E at 1. destruct (lookup a (cols df)) as [x|] eqn:Ha; [|discriminate].
    cbn [rbind] in E. destruct (rmap _ names) as [cs'|] eqn:E'; [|discriminate].
    cbn [rbind] in E. inversion E; subst. clear E.
    destruct (IH cs' eq_refl) as (IH1 & IH2 & IH3).
    split; [cbn; f_equal; exact IH1|]. split.
    + intros n Hn. cbn. destruct (String.eqb_spec n a) as [En|En]; [subst; auto|].
      destruct Hn as [Hn|Hn]; [congruence|]. apply IH2. exact Hn.
    + intros include. cbn. unfold column_is at 1. rewrite Ha.
      destruct (include x); cbn; rewrite IH3; reflexivity.
Qed.

Lemma getitem_list_returns (df : DataFrame F) (names : list string) :
  Forall (fun c => In c (columns df)) names ->
  exists X, getitem_list df names = Return X.
Proof.
  intros H. unfold getitem_list.
  assert (exists cs, rmap (fun n => rbind (getitem df n) (fun s => Return (n, s))) names
                     = Return cs) as [cs E].
  { induction H as [|a names Ha _ IH]; [eexists; reflexivity|].
    destruct IH as [cs E]. destruct (lookup_in _ _ Ha) as [x Hx].
    cbn. unfold getitem at 1. rewrite Hx. cbn [rbind]. rewrite E. eexists; reflexivity. }
  rewrite E. eexists; reflexivity.
Qed.

Lemma filter_filter_implied {A} (P Q : A -> bool) (l : list A) :
  (forall a, P a = true -> Q a = true) -> filter P (filter Q l) = filter P l.
Proof.
  intros H. induction l as [|a l IH]; [reflexivity|].
  cbn. destruct (Q a) eqn:Eq; cbn.
  - rewrite IH. reflexivity.
  - destruct (P a) eqn:Ep; [rewrite (H a Ep) in Eq; discriminate|exact IH].
Qed.

Lemma new_pipeline_features (df : DataFrame F) (names : list string) (X : DataFrame F) :
  getitem_list df names = Return X ->
  new_pipeline X
  = mkPipeline (mkCT (filter (column_is (@is_number F) df) names)
                     (filter (column_is (@is_object F) df) names) None None)
               xgb_params None.
Proof.
  intros H. apply getitem_list_spec in H. destruct H as (_ & _ & _ & H).
  unfold new_pipeline. rewrite !H. reflexivity.
Qed.

(** C10 (as amended).  With every selected name a column of the dataset:
    the 'num' list is the selected numeric columns and the 'cat' list the
    selected object columns, so a selected column of another dtype (boolean,
    category, datetime) is in neither; and the run of the training body, its
    score or the exception that ends it, is the run on the selection without
    those columns.  When a numeric or object column remains selected, the
    message of [train_model] is the message for the remaining columns. *)
Theorem other_dtypes_are_dropped (s : state) (df : DataFrame F) (n : nat) (target : string)
    (selected_features : list string) :
  uploaded_data s = Some df ->
  truthy_str (Some target) = true ->
  Forall (fun c => In c (columns df)) selected_features ->
  let kept := filter (transformed df) selected_features in
  (exists X, getitem_list df selected_features = Return X
     /\ numeric_features (preprocessor (new_pipeline X))
        = filter (column_is (@is_number F) df) selected_features
     /\ categorical_features (preprocessor (new_pipeline X))
        = filter (column_is (@is_object F) df) selected_features)
  /\ (forall c, In c selected_features -> transformed df c = false ->
       ~ In c (filter (column_is (@is_number F) df) selected_features)
       /\ ~ In c (filter (column_is (@is_object F) df) selected_features))
  /\ fst (train_body df target selected_features s) = fst (train_body df target kept s)
  /\ (kept <> [] ->
      fst (train_model (Some n) (Some target) (Some selected_features) s)
      = fst (train_model (Some n) (Some target) (Some kept) s)).
Proof.
  intros Hd Ht Hall kept.
  assert (Hall' : Forall (fun c => In c (columns df)) kept).
  { apply Forall_forall. intros c Hc. apply filter_In in Hc.
    destruct Hc as [Hc _]. revert c Hc. apply Forall_forall. exact Hall. }
  destruct (getitem_list_returns df Hall) as [X HX].
  destruct (getitem_list_returns df Hall') as [X' HX'].
  assert (Hbody : fst (train_body df target selected_features s)
                  = fst (train_body df target kept s)).
  { rewrite !train_body_run. unfold slicing_and_splitting. rewrite HX, HX'. cbn [rbind].
    destruct (getitem df target) as [y|e]; [|reflexivity]. cbn [rbind].
    pose proof (getitem_list_spec _ _ HX) as (Hr & _ & Hl & _).
    pose proof (getitem_list_spec _ _ HX') as (Hr' & _ & Hl' & _).
    rewrite Hr, Hr'.
    destruct (fst (shuffle_split (nrows df) (2 # 10) (seeded 42))) as [[tr te]|e];
      [|reflexivity].
    cbn [rbind fst snd]. cbv zeta.
    assert (Hp : new_pipeline X' = new_pipeline X).
    { rewrite (new_pipeline_features _ _ HX), (new_pipeline_features _ _ HX').
      unfold kept. rewrite !filter_filter_implied; [reflexivity| |];
        intros c Hc; unfold transformed; rewrite Hc; [apply orb_true_r|reflexivity]. }
    rewrite Hp.
    assert (Hag : agree (numeric_features (preprocessor (new_pipeline X))
                         ++ categorical_features (preprocessor (new_pipeline X))) X X').
    { rewrite (new_pipeline_features _ _ HX). cbn [preprocessor numeric_features
        categorical_features].
      intros c Hc.
      assert (In c selected_features /\ transformed df c = true) as [Hin Htr].
      { apply in_app_or in Hc. destruct Hc as [Hc|Hc]; apply filter_In in Hc;
          destruct Hc as [Hin Hc]; (split; [exact Hin|]); unfold transformed; rewrite Hc;
          [reflexivity|apply orb_true_r]. }
      rewrite (Hl c Hin). symmetry. apply Hl'. apply filter_In. auto. }
    destruct (pipeline_fit_agree (new_pipeline X) (series_take tr y)
                (agree_iloc tr Hag))
      as (Hf & Hsame & Hok).
    rewrite <- Hf.
    destruct (fst (pipeline_fit (new_pipeline X) (iloc X tr) (series_take tr y)))
      as [u|e] eqn:Efit; [|reflexivity].
    assert (Hag' : agree
              (numeric_features (preprocessor (snd (pipeline_fit (new_pipeline X) (iloc X tr)
                                                     (series_take tr y))))
               ++ categorical_features
                    (preprocessor (snd (pipeline_fit (new_pipeline X) (iloc X tr)
                                         (series_take tr y)))))
              (iloc X te) (iloc X' te)).
    { apply agree_iloc.
      replace (numeric_features (preprocessor (snd (pipeline_fit (new_pipeline X) (iloc X tr)
                                                       (series_take tr y)))))
        with (numeric_features (preprocessor (new_pipeline X))).
      replace (categorical_features (preprocessor (snd (pipeline_fit (new_pipeline X)
                                                         (iloc X tr) (series_take tr y)))))
        with (categorical_features (preprocessor (new_pipeline X))).
      exact Hag.
      - unfold pipeline_fit. destruct (ct_fit_transform _ _) as [ft|]; [|reflexivity].
        destruct (xgb_fit _ _ _); reflexivity.
      - unfold pipeline_fit. destruct (ct_fit_transform _ _) as [ft|]; [|reflexivity].
        destruct (xgb_fit _ _ _); reflexivity. }
    rewrite (pipeline_predict_agree Hsame (Hok u eq_refl) Hag').
    destruct (rbind _ _); reflexivity. }
  split; [|split; [|split]].
  - exists X. split; [exact HX|].
    rewrite (new_pipeline_features _ _ HX). split; reflexivity.
  - intros c Hc Hn. unfold transformed in Hn. apply orb_false_iff in Hn.
    destruct Hn as [Hn Ho].
    split; intros H; apply filter_In in H; destruct H as [_ H]; congruence.
  - exact Hbody.
  - intros Hk.
    assert (Hsf : selected_features <> []).
    { intros E. apply Hk. unfold kept. rewrite E. reflexivity. }
    rewrite (@train_model_run _ df n target selected_features s Hd Ht Hsf).
    rewrite (@train_model_run _ df n target kept s Hd Ht Hk).
    cbn [fst]. rewrite Hbody. reflexivity.
Qed.

End Dropping.

Section Predicting.
Context {L : Library}.
Local Open Scope string_scope.

(** ** Predict: the frame handed to the model *)

Lemma model_feature_names_in_keeps_state (s : state) :
  snd (model_feature_names_in_ s) = s.
Proof.
  unfold model_feature_names_in_, bind, get_model.
  destruct (model s) as [p|]; [|reflexivity].
  destruct (feature_names_in_ (preprocessor p)); reflexivity.
Qed.

Lemma lookup_assign (f a : string) (x : Series F) (l : list (string * Series F)) :
  lookup f (assign a x l) = if String.eqb f a then Some x else lookup f l.
Proof.
  induction l as [|[n y] l IH]; cbn.
  - destruct (String.eqb f a); reflexivity.
  - destruct (String.eqb_spec a n) as [E|E]; cbn.
    + subst. destruct (String.eqb f n); reflexivity.
    + rewrite IH. destruct (String.eqb_spec f n) as [E'|E']; [|reflexivity].
      subst. destruct (String.eqb_spec n a); [congruence|reflexivity].
Qed.

(** After [for col in missing_cols: input_df[col] = 0], a missing column is
    a column of zeros and the others are as they were. *)
Lemma lookup_after_zero_fill (f : string) (missing : list string) (D : DataFrame F) :
  nrows (fold_left (@setitem_zero F) missing D) = nrows D
  /\ lookup f (cols (fold_left (@setitem_zero F) missing D))
     = if mem f missing then Some (Int64 (repeat 0%Z (nrows D))) else lookup f (cols D).
Proof.
  revert D. induction missing as [|a l IH]; intros D; [split; reflexivity|].
  cbn [fold_left]. destruct (IH (setitem_zero D a)) as [IH1 IH2].
  split; [exact IH1|]. rewrite IH2. cbn [setitem_zero nrows cols].
  rewrite lookup_assign. unfold mem. cbn [existsb].
  destruct (String.eqb f a); cbn [orb]; [|reflexivity].
  destruct (existsb (String.eqb f) l); reflexivity.
Qed.

Lemma in_set_difference (f : string) (a b : list string) :
  In f (set_difference a b) <-> In f a /\ ~ In f b.
Proof.
  unfold set_difference. rewrite nodup_In, filter_In.
  split; intros [H1 H2]; (split; [exact H1|]).
  - intros Hb. apply mem_In in Hb. rewrite Hb in H2. discriminate.
  - destruct (mem f b) eqn:E; [apply mem_In in E; contradiction|reflexivity].
Qed.

(** Lines 275-278: when the frame is built, its columns are exactly the
    names read from the model, in their order; a name that the expanded row
    lacks comes out as the integer 0, and a name it has keeps its cell. *)
Lemma prediction_frame_spec (s : state) (processed_data : list (F + string))
    (selected_features names : list string) (X : DataFrame F) :
  fst (model_feature_names_in_ s) = Return names ->
  fst (prediction_frame processed_data selected_features s) = Return X ->
  columns X = names
  /\ forall f, In f names ->
       lookup f (cols X)
       = if mem f (columns (get_dummies (row_frame processed_data selected_features)))
         then lookup f (cols (get_dummies (row_frame processed_data selected_features)))
         else Some (Int64 [0%Z]).
Proof.
  intros Hn HX. unfold prediction_frame, bind in HX.
  pose proof (model_feature_names_in_keeps_state s) as Hs.
  destruct (model_feature_names_in_ s) as [r s0] eqn:E. cbn [fst snd] in Hn, Hs.
  subst r s0. rewrite E in HX. unfold lift in HX. cbn [fst] in HX.
  apply getitem_list_spec in HX. destruct HX as (_ & Hc & Hl & _).
  split; [exact Hc|]. intros f Hf. rewrite (Hl f Hf).
  destruct (lookup_after_zero_fill f
              (set_difference names
                 (columns (get_dummies (row_frame processed_data selected_features))))
              (get_dummies (row_frame processed_data selected_features))) as [_ H].
  rewrite H. clear H.
  destruct (mem f (columns (get_dummies (row_frame processed_data selected_features))))
    eqn:Em.
  - destruct (mem f (set_difference _ _)) eqn:Ed; [|reflexivity].
    apply mem_In in Ed, Em. apply in_set_difference in Ed. destruct Ed as [_ Ed].
    contradiction.
  - assert (Ed : mem f (set_difference names
                      (columns (get_dummies (row_frame processed_data selected_features))))
                 = true).
    { apply mem_In. apply in_set_difference. split; [exact Hf|].
      intros Hc'. apply mem_In in Hc'. congruence. }
    rewrite Ed. reflexivity.
Qed.

(** [OneHotEncoder(handle_unknown='ignore')] on a column of integers: no
    integer is a category, so every category's column is zero. *)
Lemma onehot_of_integers (fill : string) (categories : list string) (zs : list Z) :
  onehot fill categories (Int64 zs) = map (fun _ => map (fun _ => zero) zs) categories.
Proof.
  unfold onehot, labels. apply map_ext. intros c. rewrite map_map. reflexivity.
Qed.

Lemma in_combine_cells (g : string) (x : Series F) (names : list string)
    (processed_data : list (F + string)) :
  In (g, x) (combine names (map cell_column processed_data)) ->
  exists v, x = cell_column v /\ In (g, v) (combine names processed_data).
Proof.
  revert processed_data. induction names as [|a names IH]; intros [|v vs]; cbn;
    try contradiction.
  intros [H|H].
  - inversion H; subst. exists v. auto.
  - destruct (IH vs H) as [w [Hw Hin]]. exists w. auto.
Qed.

Lemma NoDup_combine_names {A} (names : list string) (l : list A) :
  NoDup names -> NoDup (map fst (combine names l)).
Proof.
  revert l. induction names as [|a names IH]; intros [|x l] H; cbn; try constructor.
  - inversion H as [|? ? Ha Hn]; subst. intros Hin. apply Ha.
    apply in_map_iff in Hin. destruct Hin as [[b y] [E Hin]]. cbn in E. subst.
    apply in_combine_l in Hin. exact Hin.
  - inversion H; subst. apply IH. assumption.
Qed.

(** A feature whose token is a string has no column of its own name in the
    expanded row, unless the dummy column of some feature is named so. *)
Lemma expanded_feature_is_absent (processed_data : list (F + string))
    (selected_features : list string) (f v : string) :
  NoDup selected_features ->
  In (f, inr v) (combine selected_features processed_data) ->
  (forall g w, In (g, inr w) (combine selected_features processed_data) ->
               g ++ "_" ++ w <> f) ->
  ~ In f (columns (get_dummies (row_frame processed_data selected_features))).
Proof.
  intros Hnd Hf Hfree. unfold columns, get_dummies, row_frame. cbn [cols].
  rewrite map_app. intros H. apply in_app_or in H. destruct H as [H|H].
  - apply in_map_iff in H. destruct H as [[g x] [E H]]. cbn in E. subst g.
    apply filter_In in H. destruct H as [H Hx]. cbn in Hx.
    assert (Hf' : In (f, cell_column (inr v))
                     (combine selected_features (map cell_column processed_data))).
    { clear -Hf. revert processed_data Hf.
      induction selected_features as [|a l IH]; intros [|t ts]; cbn; try contradiction.
      intros [H|H]; [left; inversion H; reflexivity|right; apply IH; exact H]. }
    rewrite (@unique_column _ _ _ _ _ (NoDup_combine_names _ Hnd) H Hf') in Hx.
    discriminate.
  - apply in_map_iff in H. destruct H as [[g x] [E H]]. cbn in E. subst g.
    apply in_flat_map in H. destruct H as [[g y] [Hg H]].
    apply in_combine_cells in Hg. destruct Hg as [t [Ey Hg]]. subst y.
    destruct t as [z|w]; cbn in H; [contradiction|].
    destruct H as [H|[]]. inversion H. apply (Hfree g w Hg). assumption.
Qed.

(** C1. What the code does with a categorical value.  When the model
    expects the column [f], the token given for the feature [f] is a string
    [v] (so the row is expanded at [f]) and no dummy column is named [f],
    the row handed to the model holds the integer 0 under [f], whatever [v]
    is; and the encoder's block for a column holding 0 is zero in every
    category.  A value seen in training is encoded like one never seen. *)
Theorem categorical_value_is_zeroed (s : state) (processed_data : list (F + string))
    (selected_features names : list string) (X : DataFrame F) (f v : string) :
  NoDup selected_features ->
  In (f, inr v) (combine selected_features processed_data) ->
  (forall g w, In (g, inr w) (combine selected_features processed_data) ->
               g ++ "_" ++ w <> f) ->
  fst (model_feature_names_in_ s) = Return names ->
  In f names ->
  fst (prediction_frame processed_data selected_features s) = Return X ->
  lookup f (cols X) = Some (Int64 [0%Z])
  /\ forall fill categories,
       onehot fill categories (Int64 [0%Z]) = map (fun _ => [zero]) categories.
Proof.
  intros Hnd Hf Hfree Hn Hin HX. split.
  - destruct (@prediction_frame_spec s processed_data selected_features names X Hn HX)
      as [_ H].
    rewrite (H f Hin).
    destruct (mem f _) eqn:E; [|reflexivity].
    apply mem_In in E. exfalso. revert E. apply (@expanded_feature_is_absent processed_data selected_features f v Hnd Hf Hfree).
  - intros fill categories. apply onehot_of_integers.
Qed.

(** ** Train, then predict: the names the model is asked for *)

Lemma columns_iloc (X : DataFrame F) (idx : list nat) : columns (iloc X idx) = columns X.
Proof. unfold columns, iloc. cbn [cols]. rewrite map_map. reflexivity. Qed.

Lemma pipeline_fit_names (p : Pipeline) (X : DataFrame F) (y : Series F) :
  feature_names_in_ (preprocessor (snd (pipeline_fit p X y))) = Some (columns X).
Proof.
  unfold pipeline_fit. destruct (ct_fit_transform _ X) as [ft|]; [|reflexivity].
  destruct (xgb_fit _ _ _); reflexivity.
Qed.


Lemma make_prediction_returns (n : option nat) (input_values : option string)
    (selected_features : option (list string)) (s : state) :
  exists msg, fst (make_prediction n input_values selected_features s) = Return msg.
Proof.
  unfold make_prediction.
  destruct n as [n|], input_values as [v|], selected_features as [[|f fs]|];
    try (eexists; reflexivity).
  destruct (negb (truthy_str (Some v))); [eexists; reflexivity|].
  unfold try_except.
  match goal with
  | |- context [match ?m s with _ => _ end] => destruct (m s) as [[a|e] s']
  end; eexists; reflexivity.
Qed.

End Predicting.

(** * Further properties of the callbacks *)

Section Splitting.
Local Open Scope string_scope.

(** ** [str.split] *)

Lemma split_not_nil (sep : ascii) (s : string) : split sep s <> [].
Proof.
  destruct s as [|c rest]; cbn; [discriminate|].
  destruct (Ascii.eqb c sep); [discriminate|].
  destruct (split sep rest); discriminate.
Qed.

Lemma split_length (sep : ascii) (s : string) :
  length (split sep s) = S (count_char sep s).
Proof.
  induction s as [|c rest IH]; [reflexivity|].
  cbn. destruct (Ascii.eqb c sep); cbn.
  - rewrite IH. reflexivity.
  - destruct (split sep rest) as [|w ws] eqn:E; [exfalso; exact (split_not_nil _ _ E)|].
    cbn in *. exact IH.
Qed.

Lemma split_concat (sep : ascii) (s : string) :
  String.concat (String sep EmptyString) (split sep s) = s.
Proof.
  induction s as [|c rest IH]; [reflexivity|].
  cbn [split]. destruct (Ascii.eqb_spec c sep) as [E|E].
  - subst. destruct (split sep rest) as [|w ws] eqn:Es;
      [exfalso; exact (split_not_nil _ _ Es)|].
    cbn [String.concat]. cbn [String.concat] in IH. cbn. f_equal. exact IH.
  - destruct (split sep rest) as [|w ws] eqn:Es;
      [exfalso; exact (split_not_nil _ _ Es)|].
    destruct ws as [|w' ws']; cbn [String.concat] in *; cbn; f_equal; exact IH.
Qed.

Lemma split_tokens_free (sep : ascii) (s t : string) :
  In t (split sep s) -> count_char sep t = 0%nat.
Proof.
  revert t. induction s as [|c rest IH]; intros t H.
  - cbn in H. destruct H as [H|[]]. subst. reflexivity.
  - cbn [split] in H. destruct (Ascii.eqb_spec c sep) as [E|E].
    + destruct H as [H|H]; [subst; reflexivity|apply IH; exact H].
    + destruct (split sep rest) as [|w ws] eqn:Es;
        [exfalso; exact (split_not_nil _ _ Es)|].
      destruct H as [H|H].
      * subst t. cbn. destruct (Ascii.eqb_spec c sep); [contradiction|].
        apply IH. left. reflexivity.
      * apply IH. right. exact H.
Qed.

(** X1. [text.split(',')] loses nothing: joining the tokens with commas
    gives the text back, no token holds a comma, and there is one token
    more than there are commas (so never none). *)
Theorem split_round_trip (s : string) :
  String.concat "," (split comma s) = s
  /\ (forall t, In t (split comma s) -> count_char comma t = 0%nat)
  /\ length (split comma s) = S (count_char comma s).
Proof.
  split; [exact (split_concat comma s)|]. split.
  - intros t. apply split_tokens_free.
  - apply split_length.
Qed.

Lemma split_app_sep (sep : ascii) (s : string) :
  split sep (s ++ String sep EmptyString) = (split sep s ++ [EmptyString])%list.
Proof.
  induction s as [|c rest IH]; cbn.
  - rewrite Ascii.eqb_refl. reflexivity.
  - destruct (Ascii.eqb c sep); [rewrite IH; reflexivity|].
    rewrite IH. destruct (split sep rest) as [|w ws] eqn:Es;
      [exfalso; exact (split_not_nil _ _ Es)|].
    reflexivity.
Qed.

End Splitting.

Section Uploading.
Context {L : Library}.
Local Open Scope string_scope.

(** ** Upload *)

(** X2. The contents of an upload have to hold exactly one comma, the one
    that ends the data URL's header: with none or with several the unpacking
    of line 111 raises, the callback answers "Error reading file" with
    Python's message, nothing is decoded and the state is as it was. *)
Theorem handle_upload_needs_one_comma (s : state) (contents : string)
    (filename : option string) :
  truthy_str (Some contents) = true ->
  count_char comma contents <> 1%nat ->
  handle_upload (Some contents) filename s
  = (Return ("Error reading file: "
             ++ (if (count_char comma contents =? 0)%nat
                 then "not enough values to unpack (expected 2, got 1)"
                 else "too many values to unpack (expected 2)")), s).
Proof.
  intros Ht Hc. unfold handle_upload. rewrite Ht.
  unfold try_except, bind, lift, parse_upload.
  pose proof (split_length comma contents) as Hl.
  destruct (split comma contents) as [|a [|b [|c l]]]; cbn in Hl.
  - discriminate.
  - injection Hl as Hl. rewrite <- Hl. reflexivity.
  - injection Hl as Hl. congruence.
  - injection Hl as Hl. rewrite <- Hl. reflexivity.
Qed.

(** X3. Upload, then the dropdown and the checkboxes: after an upload that
    parses, the target dropdown offers the numeric columns of the parsed
    frame in its column order, and the checkboxes offer these followed by
    its object and category columns, whatever was loaded before. *)
Theorem upload_then_options (s : state) (contents : string) (filename : option string)
    (df : DataFrame F) :
  truthy_str (Some contents) = true ->
  parse_upload contents = Return df ->
  let s' := snd (handle_upload (Some contents) filename s) in
  fst (update_target_dropdown s')
  = Return (map option_of (columns (select_dtypes (@is_number F) df)))
  /\ fst (get_options s')
     = Return (map option_of (columns (select_dtypes (@is_number F) df))
               ++ map option_of (columns (select_dtypes (@is_object_or_category F) df)))%list.
Proof.
  intros Ht Hp s'. subst s'. unfold handle_upload. rewrite Ht.
  unfold try_except, bind, lift, set_uploaded_data, ret. rewrite Hp. cbn [snd].
  split; reflexivity.
Qed.

End Uploading.

Section Surfaces.
Context {L : Library}.
Local Open Scope string_scope.

(** ** Dropdown, checkboxes and charts *)

Lemma NoDup_filter_names (P : Series F -> bool) (l : list (string * Series F)) :
  NoDup (map fst l) -> NoDup (map fst (filter (fun c => P (snd c)) l)).
Proof.
  induction l as [|[n x] l IH]; cbn; intros H; [constructor|].
  inversion H as [|? ? Hn Hl]; subst.
  destruct (P x); cbn; [|apply IH; exact Hl].
  constructor; [|apply IH; exact Hl].
  intros Hin. apply Hn. apply in_map_iff in Hin. destruct Hin as [[m y] [E Hin]].
  cbn in E. subst. apply filter_In in Hin. destruct Hin as [Hin _].
  apply (in_map fst) in Hin. exact Hin.
Qed.

(** X4. With a dataset loaded, every checkbox has its label equal to its
    value and names a column of the dataset; every target of the dropdown
    is also offered as a feature (nothing keeps the target out of the
    features); and when the column names differ from one another no column
    is offered twice. *)
Theorem get_options_sound (s : state) (df : DataFrame F) :
  uploaded_data s = Some df ->
  exists options targets,
    get_options s = (Return options, s)
    /\ update_target_dropdown s = (Return targets, s)
    /\ (forall o, In o options -> fst o = snd o /\ In (snd o) (columns df))
    /\ (forall o, In o targets -> In o options)
    /\ (NoDup (columns df) -> NoDup (map snd options)).
Proof.
  intros Hd. unfold get_options, update_target_dropdown, bind, get_uploaded_data.
  rewrite Hd. eexists. eexists. split; [reflexivity|]. split; [reflexivity|].
  split; [|split].
  - intros o Ho. apply in_app_or in Ho.
    destruct Ho as [Ho|Ho]; apply in_map_iff in Ho; destruct Ho as [c [E Hc]]; subst o;
      (split; [reflexivity|]); apply in_selected_columns in Hc;
      destruct Hc as [x [Hx _]]; apply (in_map fst) in Hx; exact Hx.
  - intros o Ho. apply in_or_app. left. exact Ho.
  - intros Hnd. rewrite map_app, !map_map. cbn [option_of snd]. rewrite !map_id.
    apply NoDup_app.
    + apply NoDup_filter_names. exact Hnd.
    + apply NoDup_filter_names. exact Hnd.
    + intros c H1 H2.
      apply in_selected_columns in H1. apply in_selected_columns in H2.
      destruct H1 as [x [Hx Ex]]. destruct H2 as [y [Hy Ey]].
      rewrite (@unique_column _ _ _ _ _ Hnd Hy Hx) in Ey.
      destruct x; discriminate.
Qed.

Lemma reads_only_ret {A} (a : A) : reads_only (ret a).
Proof. intros s. reflexivity. Qed.

Lemma reads_only_lift {A} (r : result A) : reads_only (lift r).
Proof. intros s. reflexivity. Qed.

Lemma reads_only_bind {A B} (m : M A) (k : A -> M B) :
  reads_only m -> (forall a, reads_only (k a)) -> reads_only (bind m k).
Proof.
  intros Hm Hk s. unfold bind. specialize (Hm s).
  destruct (m s) as [[a|e] s']; cbn [snd] in *; subst s'; [apply Hk|reflexivity].
Qed.

Lemma bind_return_inv {A B} (m : M A) (k : A -> M B) (s : state) (b : B) :
  fst (bind m k s) = Return b ->
  exists a s', m s = (Return a, s') /\ fst (k a s') = Return b.
Proof.
  unfold bind. destruct (m s) as [[a|e] s']; [|discriminate].
  intros H. exists a, s'. auto.
Qed.

(** X5. The chart callback only reads: whatever it is given and whether it
    returns or raises, the state after it is the state before it; and when
    it returns with a dataset loaded and a target given, the radio options
    are the object columns of the dataset, in order (category columns, which
    the checkboxes offer, are not among them). *)
Theorem update_barcharts_reads_only (s : state) (target categorical_var : option string) :
  snd (update_barcharts target categorical_var s) = s
  /\ forall df t options category_chart corr_chart,
       uploaded_data s = Some df ->
       target = Some t ->
       fst (update_barcharts target categorical_var s)
       = Return (options, category_chart, corr_chart) ->
       options = map option_of (columns (select_dtypes (@is_object F) df)).
Proof.
  split.
  - revert s. change (reads_only (update_barcharts target categorical_var)).
    unfold update_barcharts. apply reads_only_bind; [intros s; reflexivity|].
    intros [df|]; [|destruct target; apply reads_only_ret].
    destruct target as [t|]; [|apply reads_only_ret].
    apply reads_only_bind.
    + destruct categorical_var as [c|]; [|apply reads_only_ret].
      destruct (truthy_str (Some c)); [|apply reads_only_ret].
      apply reads_only_bind; [apply reads_only_lift|]. intros a.
      apply reads_only_bind; [apply reads_only_lift|]. intros fig. apply reads_only_ret.
    + intros chart. apply reads_only_bind; [|intros; apply reads_only_ret].
      destruct (is_empty _); [apply reads_only_ret|].
      apply reads_only_bind; [apply reads_only_lift|]. intros column.
      apply reads_only_bind; [apply reads_only_lift|]. intros dropped.
      apply reads_only_bind; [apply reads_only_lift|]. intros fig. apply reads_only_ret.
  - intros df t options category_chart corr_chart Hd Ht H. subst target.
    unfold update_barcharts in H.
    apply bind_return_inv in H. destruct H as (d & s1 & Hget & H).
    unfold get_uploaded_data in Hget. inversion Hget; subst d s1. rewrite Hd in H.
    apply bind_return_inv in H. destruct H as (cc & s2 & _ & H).
    apply bind_return_inv in H. destruct H as (rc & s3 & _ & H).
    cbn in H. inversion H. reflexivity.
Qed.

(** X6. A dataset without numeric data (no numeric column, or no row) gives
    no correlation chart and no error: with no categorical choice the
    callback returns the radio options and two empty charts for any target
    at all, also one that names no column. *)
Theorem update_barcharts_without_numeric_data (s : state) (df : DataFrame F)
    (target : string) (categorical_var : option string) :
  uploaded_data s = Some df ->
  is_empty (select_dtypes (@is_number F) df) = true ->
  truthy_str categorical_var = false ->
  update_barcharts (Some target) categorical_var s
  = (Return (map option_of (columns (select_dtypes (@is_object F) df)), None, None), s).
Proof.
  intros Hd He Hc. unfold update_barcharts, bind, get_uploaded_data. rewrite Hd.
  destruct categorical_var as [c|]; [rewrite Hc|]; cbn; rewrite He; reflexivity.
Qed.

End Surfaces.

Section TrainingMore.
Context {L : Library}.
Local Open Scope string_scope.

(** ** Train *)

Lemma train_body_keeps_generator (df : DataFrame F) (target : string)
    (selected_features : list string) (s : state) :
  np_random (snd (train_body df target selected_features s)) = np_random s.
Proof.
  rewrite train_body_run.
  destruct (slicing_and_splitting df target selected_features)
    as [[X [[[X_train X_test] y_train] y_test]]|e]; [|reflexivity].
  cbv zeta.
  destruct (fst (pipeline_fit (new_pipeline X) X_train y_train)); [|reflexivity].
  destruct (rbind _ _); reflexivity.
Qed.

Lemma train_model_unchanged_or_trained (n : option nat) (target : option string)
    (selected_features : option (list string)) (s : state) :
  train_model n target selected_features s
  = (fst (train_model n target selected_features s), s)
  \/ exists k df t f fs,
       n = Some k /\ uploaded_data s = Some df /\ target = Some t
       /\ truthy_str (Some t) = true /\ selected_features = Some (f :: fs)
       /\ snd (train_model n target selected_features s) = snd (train_body df t (f :: fs) s).
Proof.
  destruct n as [k|]; [|left; reflexivity].
  destruct (uploaded_data s) as [df|] eqn:Hd;
    [|left; unfold train_model, bind, get_uploaded_data; rewrite Hd; reflexivity].
  destruct target as [t|];
    [|left; unfold train_model, bind, get_uploaded_data; rewrite Hd; reflexivity].
  destruct (truthy_str (Some t)) eqn:Ht;
    [|left; unfold train_model, bind, get_uploaded_data; rewrite Hd, Ht; reflexivity].
  destruct selected_features as [[|f fs]|];
    try (left; unfold train_model, bind, get_uploaded_data; rewrite Hd, Ht; reflexivity).
  right. exists k, df, t, f, fs.
  split; [reflexivity|]. split; [reflexivity|]. split; [reflexivity|].
  split; [exact Ht|]. split; [reflexivity|].
  assert (Hsf : f :: fs <> []) by discriminate.
  rewrite (@train_model_run _ df k t (f :: fs) s Hd Ht Hsf). reflexivity.
Qed.

(** X7. Training never touches the dataset or numpy's global generator,
    whatever its arguments and its outcome; and it leaves a model other than
    the one it found only when the button was clicked, a dataset is loaded,
    a target and at least one feature are chosen, and both the slicing and
    the split succeeded. *)
Theorem train_model_footprint (n : option nat) (target : option string)
    (selected_features : option (list string)) (s : state) :
  let s' := snd (train_model n target selected_features s) in
  uploaded_data s' = uploaded_data s
  /\ np_random s' = np_random s
  /\ (model s' <> model s ->
      exists k df t f fs split_data,
        n = Some k /\ uploaded_data s = Some df /\ target = Some t
        /\ truthy_str (Some t) = true /\ selected_features = Some (f :: fs)
        /\ slicing_and_splitting df t (f :: fs) = Return split_data).
Proof.
  cbv zeta.
  destruct (train_model_unchanged_or_trained n target selected_features s)
    as [E|(k & df & t & f & fs & En & Hd & Et & Ht & Es & E)].
  - rewrite E. cbn [snd]. split; [reflexivity|]. split; [reflexivity|].
    intros H. contradiction H. reflexivity.
  - rewrite E. split; [apply train_body_keeps_dataset|].
    split; [apply train_body_keeps_generator|].
    intros H. exists k, df, t, f, fs.
    destruct (slicing_and_splitting df t (f :: fs)) as [split_data|e] eqn:Esl.
    + exists split_data. repeat (split; [assumption|]). reflexivity.
    + exfalso. apply H. rewrite train_body_run, Esl. reflexivity.
Qed.

Lemma slicing_columns (df : DataFrame F) (target : string) (selected_features : list string)
    (X X_train X_test : DataFrame F) (y_train y_test : Series F) :
  slicing_and_splitting df target selected_features
  = Return (X, (X_train, X_test, y_train, y_test)) ->
  columns X_train = selected_features.
Proof.
  unfold slicing_and_splitting. intros H.
  destruct (getitem_list df selected_features) as [X0|] eqn:EX; [|discriminate].
  cbn [rbind] in H. destruct (getitem df target); [|discriminate].
  cbn [rbind] in H. destruct (fst (shuffle_split _ _ _)); [|discriminate].
  cbn [rbind] in H. inversion H; subst.
  rewrite columns_iloc. apply getitem_list_spec in EX.
  destruct EX as (_ & Hc & _). exact Hc.
Qed.

(** X8. When training answers "Model trained successfully", the model in
    place is the pipeline of this call, wholly fitted: it has recorded the
    selected features as its input names, its preprocessing step is fitted
    with one entry per 'cat' column, its regressor is fitted, and the model
    was called twice, to fit and then to predict the held-out rows. *)
Theorem successful_training_installs_fitted_model (s : state) (df : DataFrame F) (n : nat)
    (target : string) (selected_features : list string) (score : string) :
  uploaded_data s = Some df ->
  truthy_str (Some target) = true ->
  selected_features <> [] ->
  fst (train_model (Some n) (Some target) (Some selected_features) s)
  = Return ("Model trained successfully! R^2 score: " ++ score) ->
  let s' := snd (train_model (Some n) (Some target) (Some selected_features) s) in
  exists p nf cf b,
    model s' = Some p
    /\ feature_names_in_ (preprocessor p) = Some selected_features
    /\ transformers_ (preprocessor p) = Some (nf, cf)
    /\ map fst cf = categorical_features (preprocessor p)
    /\ booster_ p = Some b
    /\ calls s' = (calls s ++ [called_fit; called_predict])%list.
Proof.
  intros Hd Ht Hsf Hmsg. cbv zeta.
  rewrite (@train_model_run _ df n target selected_features s Hd Ht Hsf) in *.
  cbn [fst snd] in *. rewrite train_body_run in *.
  destruct (slicing_and_splitting df target selected_features)
    as [[X [[[X_train X_test] y_train] y_test]]|e] eqn:Esl;
    [|cbn in Hmsg; discriminate Hmsg].
  pose proof (slicing_columns _ _ _ Esl) as Hcols.
  cbv zeta in *.
  pose proof (pipeline_fit_names (new_pipeline X) X_train y_train) as Hnames.
  unfold pipeline_fit in *. cbn [new_pipeline preprocessor numeric_features
    categorical_features transformers_ regressor booster_] in *.
  destruct (ct_fit_transform _ X_train) as [[[nf cf] Xt]|e] eqn:Eft;
    [|cbn in Hmsg; discriminate Hmsg].
  cbn [fst snd] in *.
  destruct (xgb_fit xgb_params Xt y_train) as [b|e]; [|cbn in Hmsg; discriminate Hmsg].
  cbn [fst snd] in *.
  destruct (rbind _ _) as [r2|e]; [|cbn in Hmsg; discriminate Hmsg].
  cbn [fst snd after_predict model calls].
  eexists. exists nf, cf, b. split; [reflexivity|].
  cbn [preprocessor feature_names_in_ transformers_ categorical_features booster_].
  split; [rewrite Hcols; reflexivity|]. split; [reflexivity|].
  split; [|split; [reflexivity|rewrite <- app_assoc; reflexivity]].
  unfold ct_fit_transform in Eft. cbn [numeric_features categorical_features] in Eft.
  destruct (select_columns _ X_train) as [ncols|]; [|discriminate]. cbn [rbind] in Eft.
  destruct (num_fit ncols) as [nf0|]; [|discriminate]. cbn [rbind] in Eft.
  destruct (num_transform nf0 ncols) as [Xn|]; [|discriminate]. cbn [rbind] in Eft.
  destruct (cat_fit_columns _ X_train) as [cf0|] eqn:E0; [|discriminate]. cbn [rbind] in Eft.
  destruct (cat_transform cf0 X_train); [|discriminate]. cbn [rbind] in Eft.
  inversion Eft; subst. apply (cat_fit_columns_names _ _ E0).
Qed.

(** X9. A training replaces the model, it does not build on it: once the
    slicing and the split succeed, the model left in place is the same from
    any two states that hold the same dataset, whatever model they held. *)
Theorem installed_model_ignores_previous_model (s s' : state) (df : DataFrame F)
    (n n' : nat) (target : string) (selected_features : list string)
    (split_data : DataFrame F * (DataFrame F * DataFrame F * Series F * Series F)) :
  uploaded_data s = Some df ->
  uploaded_data s' = Some df ->
  truthy_str (Some target) = true ->
  selected_features <> [] ->
  slicing_and_splitting df target selected_features = Return split_data ->
  model (snd (train_model (Some n) (Some target) (Some selected_features) s))
  = model (snd (train_model (Some n') (Some target) (Some selected_features) s')).
Proof.
  intros Hd Hd' Ht Hsf Hsl.
  pose proof (@train_model_model_after _ s df n target selected_features Hd Ht Hsf) as H.
  pose proof (@train_model_model_after _ s' df n' target selected_features Hd' Ht Hsf) as H'.
  rewrite Hsl in H, H'. destruct split_data as [X [[[X_train X_test] y_train] y_test]].
  rewrite H, H'. reflexivity.
Qed.

End TrainingMore.

Section PredictingMore.
Context {L : Library}.
Local Open Scope string_scope.

(** ** Predict *)

Lemma prediction_frame_keeps_state (processed_data : list (F + string))
    (selected_features : list string) (s : state) :
  snd (prediction_frame processed_data selected_features s) = s.
Proof.
  unfold prediction_frame, bind.
  pose proof (model_feature_names_in_keeps_state s) as Hs.
  destruct (model_feature_names_in_ s) as [[names|e] s0] eqn:E; cbn [snd] in Hs; subst s0;
    [|reflexivity].
  rewrite E. reflexivity.
Qed.

Lemma model_predict_same_globals (X : DataFrame F) (s : state) :
  same_globals s (snd (model_predict X s)).
Proof.
  unfold model_predict, bind, get_model, log, lift, raise.
  destruct (model s) as [p|]; cbn.
  - destruct (pipeline_predict p X); repeat split.
  - repeat split.
Qed.

(** X10. Predict never raises and never changes what the process holds:
    for any arguments and any state it returns a message, and the dataset,
    the model and numpy's generator are after the call what they were
    before it. *)
Theorem make_prediction_keeps_globals (n : option nat) (input_values : option string)
    (selected_features : option (list string)) (s : state) :
  (exists msg, fst (make_prediction n input_values selected_features s) = Return msg)
  /\ same_globals s (snd (make_prediction n input_values selected_features s)).
Proof.
  split; [apply make_prediction_returns|].
  unfold make_prediction.
  destruct n as [n|], input_values as [v|], selected_features as [[|f fs]|];
    try solve [repeat split].
  destruct (negb (truthy_str (Some v))); [repeat split|].
  unfold try_except.
  destruct (negb (length (map process (split comma v)) =? length (f :: fs))%nat);
    [repeat split|].
  unfold bind.
  pose proof (prediction_frame_keeps_state (map process (split comma v)) (f :: fs) s) as Hs.
  destruct (prediction_frame (map process (split comma v)) (f :: fs) s) as [[X|e] s0];
    cbn [snd] in Hs; subst s0; [|repeat split].
  pose proof (model_predict_same_globals X s) as Hp.
  destruct (model_predict X s) as [[[|p0 ps]|e] s1]; cbn [snd] in Hp; cbn; exact Hp.
Qed.

(** X11. Predict before any training: with no model in place, a call whose
    token count matches the feature count answers with Python's
    attribute error on [None] as a message, and the model is not called. *)
Theorem make_prediction_without_model (s : state) (n : nat) (input_values : string)
    (selected_features : list string) :
  model s = None ->
  truthy_str (Some input_values) = true ->
  selected_features <> [] ->
  length (split comma input_values) = length selected_features ->
  make_prediction (Some n) (Some input_values) (Some selected_features) s
  = (Return "Error: 'NoneType' object has no attribute 'feature_names_in_'", s).
Proof.
  intros Hm Hin Hsf Hlen. unfold make_prediction.
  destruct selected_features as [|f fs]; [congruence|].
  rewrite Hin. cbn [negb]. unfold try_except. rewrite length_map, Hlen, Nat.eqb_refl.
  cbn [negb]. unfold bind, prediction_frame, bind, model_feature_names_in_, bind, get_model.
  rewrite Hm. reflexivity.
Qed.

(** X12. Predict on a model whose regressor is not fitted (what a training
    that failed in [fit] leaves in place): a call whose token count matches
    the feature count answers "Error: ..." for some exception, never a
    prediction. *)
Theorem make_prediction_on_unfitted_model (s : state) (p : Pipeline) (n : nat)
    (input_values : string) (selected_features : list string) :
  model s = Some p ->
  booster_ p = None ->
  truthy_str (Some input_values) = true ->
  selected_features <> [] ->
  length (split comma input_values) = length selected_features ->
  exists e,
    fst (make_prediction (Some n) (Some input_values) (Some selected_features) s)
    = Return ("Error: " ++ str e).
Proof.
  intros Hm Hb Hin Hsf Hlen. unfold make_prediction.
  destruct selected_features as [|f fs]; [congruence|].
  rewrite Hin. cbn [negb]. unfold try_except. rewrite length_map, Hlen, Nat.eqb_refl.
  cbn [negb]. unfold bind.
  pose proof (prediction_frame_keeps_state (map process (split comma input_values))
                (f :: fs) s) as Hs.
  destruct (prediction_frame (map process (split comma input_values)) (f :: fs) s)
    as [[X|e] s0]; cbn [snd] in Hs; subst s0; [|exists e; reflexivity].
  unfold model_predict, bind, get_model, log, lift. rewrite Hm.
  unfold pipeline_predict. rewrite Hb.
  destruct (ct_transform (preprocessor p) X) as [Xt|e];
    [exists (LibraryError "need to call fit or load_model beforehand")|exists e];
    reflexivity.
Qed.

(** X13. A text that ends with a comma has an empty token after it: if the
    text without that comma has one token per selected feature, as the
    input box asks for ("each feature has a value, followed by a comma"),
    the call is answered with the count error for one token too many. *)
Theorem make_prediction_trailing_comma (s : state) (n : nat) (input_values : string)
    (selected_features : list string) :
  selected_features <> [] ->
  length (split comma input_values) = length selected_features ->
  make_prediction (Some n) (Some (input_values ++ ",")) (Some selected_features) s
  = (Return ("Error: Expected " ++ str_nat (length selected_features)
             ++ " features, but got " ++ str_nat (S (length selected_features)) ++ "."),
     s).
Proof.
  intros Hsf Hlen. unfold make_prediction.
  destruct selected_features as [|f fs]; [congruence|].
  assert (Ht : truthy_str (Some (input_values ++ ",")) = true).
  { destruct input_values; reflexivity. }
  rewrite Ht. cbn [negb]. unfold try_except.
  change (input_values ++ ",") with (input_values ++ String comma EmptyString).
  rewrite length_map, split_app_sep, length_app, Hlen. cbn [length].
  replace (S (length fs) + 1)%nat with (S (S (length fs))) by lia.
  destruct (Nat.eqb_spec (S (S (length fs))) (S (length fs))) as [E|E]; [lia|].
  reflexivity.
Qed.

Lemma lookup_some_in (c : string) (x : Series F) (l : list (string * Series F)) :
  lookup c l = Some x -> In (c, x) l.
Proof.
  induction l as [|[n y] l IH]; cbn; [discriminate|].
  destruct (String.eqb_spec c n) as [E|E].
  - intros H. inversion H; subst. left. reflexivity.
  - intros H. right. apply IH. exact H.
Qed.


Lemma getitem_list_lookup_ext (D D' : DataFrame F) (names : list string) :
  nrows D = nrows D' ->
  (forall f, lookup f (cols D) = lookup f (cols D')) ->
  getitem_list D names = getitem_list D' names.
Proof.
  intros Hr Hl. unfold getitem_list. rewrite Hr.
  rewrite (@rmap_ext_in _ _
             (fun n => rbind (getitem D n) (fun s => Return (n, s)))
             (fun n => rbind (getitem D' n) (fun s => Return (n, s))) names);
    [reflexivity|].
  intros n _. unfold getitem. rewrite Hl. reflexivity.
Qed.

(** X15. The order in which the missing columns are filled in does not
    matter (line 276 iterates over a set): filling them in any other order,
    or several times, and then selecting the model's names gives the same
    frame. *)
Theorem zero_fill_order_is_irrelevant (D : DataFrame F) (missing missing' names : list string) :
  (forall f, In f missing <-> In f missing') ->
  getitem_list (fold_left (@setitem_zero F) missing D) names
  = getitem_list (fold_left (@setitem_zero F) missing' D) names.
Proof.
  intros H.
  apply getitem_list_lookup_ext.
  - rewrite (proj1 (lookup_after_zero_fill EmptyString missing D)).
    rewrite (proj1 (lookup_after_zero_fill EmptyString missing' D)). reflexivity.
  - intros f.
    rewrite (proj2 (lookup_after_zero_fill f missing D)).
    rewrite (proj2 (lookup_after_zero_fill f missing' D)).
    destruct (mem f missing) eqn:E, (mem f missing') eqn:E'; try reflexivity.
    + apply mem_In in E. apply H in E. apply mem_In in E. congruence.
    + apply mem_In in E'. apply H in E'. apply mem_In in E'. congruence.
Qed.

Lemma lookup_app_first (f : string) (x : Series F) (l r : list (string * Series F)) :
  lookup f l = Some x -> lookup f (l ++ r) = Some x.
Proof.
  induction l as [|[n y] l IH]; cbn; [discriminate|].
  destruct (String.eqb f n); [auto|exact IH].
Qed.

Lemma lookup_unique (f : string) (x : Series F) (l : list (string * Series F)) :
  NoDup (map fst l) -> In (f, x) l -> lookup f l = Some x.
Proof.
  intros Hnd Hin. destruct (lookup_in f l (in_map fst _ _ Hin)) as [y Hy].
  rewrite Hy. f_equal. apply lookup_some_in in Hy.
  exact (@unique_column _ l f y x Hnd Hy Hin).
Qed.

(** X16. A numeric token is kept: when the model expects the column [f],
    the token given for the feature [f] parses as the float [x] and no dummy
    column is named [f], the row handed to the model holds [x] under [f]. *)
Theorem numeric_value_is_kept (s : state) (processed_data : list (F + string))
    (selected_features names : list string) (X : DataFrame F) (f : string) (x : F) :
  NoDup selected_features ->
  In (f, inl x) (combine selected_features processed_data) ->
  (forall g w, In (g, inr w) (combine selected_features processed_data) ->
               g ++ "_" ++ w <> f) ->
  fst (model_feature_names_in_ s) = Return names ->
  In f names ->
  fst (prediction_frame processed_data selected_features s) = Return X ->
  lookup f (cols X) = Some (Float64 [x]).
Proof.
  intros Hnd Hf Hfree Hn Hin HX.
  destruct (@prediction_frame_spec _ s processed_data selected_features names X Hn HX)
    as [_ H].
  rewrite (H f Hin). clear H.
  assert (Hl : lookup f (cols (get_dummies (row_frame processed_data selected_features)))
               = Some (Float64 [x])).
  { unfold get_dummies, row_frame. cbn [cols]. apply lookup_app_first.
    apply lookup_unique.
    - apply NoDup_filter_names with (P := fun x => negb (is_object_or_category x)).
      apply NoDup_combine_names. exact Hnd.
    - apply filter_In. split; [|reflexivity].
      clear -Hf. revert processed_data Hf.
      induction selected_features as [|a l IH]; intros [|t ts]; cbn; try contradiction.
      intros [H|H]; [left; inversion H; reflexivity|right; apply IH; exact H]. }
  rewrite Hl.
  destruct (mem f _) eqn:E; [reflexivity|].
  apply lookup_some_in in Hl. apply (in_map fst) in Hl. apply mem_In in Hl.
  cbn [fst] in Hl. unfold columns in E. congruence.
Qed.

End PredictingMore.

Section Ignoring.
Context {L : Library}.
Local Open Scope string_scope.

(** X17. The charts with a categorical column chosen and a target that
    names no column of the dataset: [groupby(...)[target]] raises
    "Column not found", and the callback raises it to its caller, leaving
    the state as it was. *)
Theorem update_barcharts_unknown_target (s : state) (df : DataFrame F)
    (target categorical_var : string) (keys : Series F) :
  uploaded_data s = Some df ->
  truthy_str (Some categorical_var) = true ->
  lookup categorical_var (cols df) = Some keys ->
  lookup target (cols df) = None ->
  update_barcharts (Some target) (Some categorical_var) s
  = (Raise (KeyError ("Column not found: " ++ target)), s).
Proof.
  intros Hd Ht Hc Hl.
  unfold update_barcharts, bind, get_uploaded_data. rewrite Hd, Ht.
  unfold lift, groupby_mean, getitem. rewrite Hc. cbn [rbind]. rewrite Hl. reflexivity.
Qed.

Lemma lookup_app (f : string) (l r : list (string * Series F)) :
  lookup f (l ++ r) = match lookup f l with
                      | Some x => Some x
                      | None => lookup f r
                      end.
Proof.
  induction l as [|[n y] l IH]; cbn; [reflexivity|].
  destruct (String.eqb f n); [reflexivity|exact IH].
Qed.

Lemma lookup_none (f : string) (l : list (string * Series F)) :
  ~ In f (map fst l) -> lookup f l = None.
Proof.
  intros H. destruct (lookup f l) as [x|] eqn:E; [|reflexivity].
  exfalso. apply H. apply lookup_some_in in E. apply (in_map fst) in E. exact E.
Qed.

Lemma mem_columns_lookup (f : string) (l : list (string * Series F)) (z : Series F) :
  (if mem f (map fst l) then lookup f l else Some z)
  = match lookup f l with
    | Some x => Some x
    | None => Some z
    end.
Proof.
  destruct (mem f (map fst l)) eqn:E.
  - apply mem_In in E. destruct (lookup_in _ _ E) as [x Hx]. rewrite Hx. reflexivity.
  - rewrite lookup_none; [reflexivity|]. intros H. apply mem_In in H. congruence.
Qed.

Lemma dummy_names (f : string) (names : list string) (row : list (F + string)) :
  In f (map fst (flat_map (@dummies_of F) (combine names (map cell_column row)))) ->
  exists g w, In (g, inr w) (combine names row) /\ f = g ++ "_" ++ w.
Proof.
  intros H. apply in_map_iff in H. destruct H as [[g x] [E H]]. cbn in E. subst g.
  apply in_flat_map in H. destruct H as [[g y] [Hg H]].
  apply in_combine_cells in Hg. destruct Hg as [t [Ey Hg]]. subst y.
  destruct t as [z|w]; cbn in H; [contradiction|].
  destruct H as [H|[]]. inversion H. exists g, w. auto.
Qed.

Lemma kept_columns_same_numbers (names : list string) (row row' : list (F + string)) :
  same_numbers row row' ->
  filter (fun c => negb (is_object_or_category (snd c)))
         (combine names (map cell_column row))
  = filter (fun c => negb (is_object_or_category (snd c)))
           (combine names (map cell_column row')).
Proof.
  intros H. revert names. induction H as [|v v' row row' Hv _ IH]; intros names.
  - reflexivity.
  - destruct names as [|a names]; [reflexivity|].
    destruct v as [x|w], v' as [x'|w']; try contradiction; cbn.
    + subst x'. f_equal. apply IH.
    + apply IH.
Qed.

(** The cell that lines 272-278 put under a name the model asks for, when
    no dummy column has that name: the float token of the feature of that
    name, or 0. *)
Lemma expanded_lookup (names : list string) (row : list (F + string)) (f : string) :
  (forall g w, In (g, inr w) (combine names row) -> g ++ "_" ++ w <> f) ->
  lookup f (cols (get_dummies (row_frame row names)))
  = lookup f (filter (fun c => negb (is_object_or_category (snd c)))
                     (combine names (map cell_column row))).
Proof.
  intros Hfree. unfold get_dummies, row_frame. cbn [cols]. rewrite lookup_app.
  destruct (lookup f (filter _ _)); [reflexivity|].
  apply lookup_none. intros H. apply dummy_names in H.
  destruct H as (g & w & Hin & E). exact (Hfree g w Hin (eq_sym E)).
Qed.

Lemma prediction_frame_same_numbers (s : state) (row row' : list (F + string))
    (selected_features names : list string) :
  fst (model_feature_names_in_ s) = Return names ->
  same_numbers row row' ->
  (forall f g w, In f names -> In (g, inr w) (combine selected_features row) ->
                 g ++ "_" ++ w <> f) ->
  (forall f g w, In f names -> In (g, inr w) (combine selected_features row') ->
                 g ++ "_" ++ w <> f) ->
  prediction_frame row selected_features s = prediction_frame row' selected_features s.
Proof.
  intros Hn Hsame Hfree Hfree'. unfold prediction_frame, bind.
  pose proof (model_feature_names_in_keeps_state s) as Hs.
  destruct (model_feature_names_in_ s) as [r s0] eqn:E. cbn [fst snd] in Hn, Hs.
  subst r s0. rewrite E. unfold lift. f_equal.
  set (D := get_dummies (row_frame row selected_features)).
  set (D' := get_dummies (row_frame row' selected_features)).
  assert (Hl : forall f, In f names -> lookup f (cols D) = lookup f (cols D')).
  { intros f Hf. unfold D, D'.
    rewrite (expanded_lookup _ _ (fun g w => Hfree f g w Hf)).
    rewrite (expanded_lookup _ _ (fun g w => Hfree' f g w Hf)).
    rewrite (kept_columns_same_numbers selected_features Hsame). reflexivity. }
  unfold getitem_list.
  rewrite (proj1 (lookup_after_zero_fill EmptyString (set_difference names (columns D)) D)).
  rewrite (proj1 (lookup_after_zero_fill EmptyString (set_difference names (columns D')) D')).
  change (nrows D) with 1%nat. change (nrows D') with 1%nat.
  rewrite (@rmap_ext_in _ _
             (fun n => rbind (getitem (fold_left (@setitem_zero F)
                                         (set_difference names (columns D)) D) n)
                             (fun x => Return (n, x)))
             (fun n => rbind (getitem (fold_left (@setitem_zero F)
                                         (set_difference names (columns D')) D') n)
                             (fun x => Return (n, x))) names); [reflexivity|].
  intros f Hf. unfold getitem.
  rewrite (proj2 (lookup_after_zero_fill f (set_difference names (columns D)) D)).
  rewrite (proj2 (lookup_after_zero_fill f (set_difference names (columns D')) D')).
  change (nrows D) with 1%nat. change (nrows D') with 1%nat.
  assert (Hm : forall (Z : DataFrame F),
             mem f (set_difference names (columns Z)) = negb (mem f (columns Z))).
  { intros Z. destruct (mem f (columns Z)) eqn:Ez; cbn.
    - destruct (mem f (set_difference _ _)) eqn:Ed; [|reflexivity].
      apply mem_In in Ed, Ez. apply in_set_difference in Ed. tauto.
    - apply mem_In. apply in_set_difference. split; [exact Hf|].
      intros H. apply mem_In in H. congruence. }
  rewrite !Hm.
  assert (Hc : mem f (columns D) = mem f (columns D')).
  { pose proof (Hl f Hf) as Hlf.
    destruct (mem f (columns D)) eqn:E1, (mem f (columns D')) eqn:E2; try reflexivity.
    - apply mem_In in E1. destruct (lookup_in _ _ E1) as [x Hx]. rewrite Hx in Hlf.
      symmetry in Hlf. apply lookup_some_in in Hlf. apply (in_map fst) in Hlf.
      apply mem_In in Hlf. unfold columns in E2. cbn [fst] in Hlf. congruence.
    - apply mem_In in E2. destruct (lookup_in _ _ E2) as [x Hx]. rewrite Hx in Hlf.
      apply lookup_some_in in Hlf. apply (in_map fst) in Hlf.
      apply mem_In in Hlf. unfold columns in E1. cbn [fst] in Hlf. congruence. }
  rewrite <- Hc, (Hl f Hf). reflexivity.
Qed.

(** X18. The strings typed for string-valued features do not reach the
    model.  Take two texts whose tokens hold the same floats at the same
    places and strings at the other places, and let no name the model asks
    for be a dummy column's name for either: predict gives the same answer
    and leaves the same state for both. *)
Theorem string_tokens_are_ignored (s : state) (n : nat) (input_values input_values' : string)
    (selected_features names : list string) :
  truthy_str (Some input_values) = true ->
  truthy_str (Some input_values') = true ->
  fst (model_feature_names_in_ s) = Return names ->
  same_numbers (map process (split comma input_values))
               (map process (split comma input_values')) ->
  (forall f g w, In f names ->
     In (g, inr w) (combine selected_features (map process (split comma input_values))) ->
     g ++ "_" ++ w <> f) ->
  (forall f g w, In f names ->
     In (g, inr w) (combine selected_features (map process (split comma input_values'))) ->
     g ++ "_" ++ w <> f) ->
  make_prediction (Some n) (Some input_values) (Some selected_features) s
  = make_prediction (Some n) (Some input_values') (Some selected_features) s.
Proof.
  intros Ht Ht' Hn Hsame Hfree Hfree'. unfold make_prediction.
  destruct selected_features as [|f fs]; [reflexivity|].
  rewrite Ht, Ht'. cbn [negb]. unfold try_except.
  rewrite <- (Forall2_length Hsame).
  destruct (negb (length (map process (split comma input_values)) =? length (f :: fs))%nat);
    [reflexivity|].
  unfold bind.
  rewrite (@prediction_frame_same_numbers s _ _ (f :: fs) names Hn Hsame Hfree Hfree').
  reflexivity.
Qed.

End Ignoring.

(** * The properties on the shop's table *)

Module Checks.
Import Demo.
Local Open Scope string_scope.

Example shop_columns :
  cols shop
  = [("size", Int64 [1; 2; 3; 4; 5]%Z);
     ("flag", Bool [true; false; true; true; false]);
     ("color", Object [Some "red"; Some "blue"; Some "red"; Some "blue"; Some "red"]);
     ("price", Int64 [10; 20; 30; 40; 50]%Z);
     ("cost", Float64 [Some 5; None; Some 7; Some 8; Some 9]%Z)].
Proof. reflexivity. Qed.

Lemma loaded_shop : uploaded_data loaded = Some shop.
Proof. vm_compute. reflexivity. Qed.

Lemma shop_names_differ : NoDup (columns shop).
Proof.
  vm_compute. repeat constructor; cbn; intuition discriminate.
Qed.

(** Upload: an empty payload does not parse, and the store stays empty. *)
Lemma handle_upload_replaces_or_keeps_witness :
  truthy_str (Some "data:text/csv;base64,") = true
  /\ handle_upload (L:=library) (Some "data:text/csv;base64,") (Some "empty.csv") start
     = (Return "Error reading file: No columns to parse from file", start).
Proof.
  split; [reflexivity|].
  exact (@handle_upload_replaces_or_keeps library start "data:text/csv;base64,"
           (Some "empty.csv") eq_refl).
Defined.

(** Train with no target chosen, on the loaded table. *)
Lemma train_model_preconditions_witness :
  (uploaded_data loaded = None \/ truthy_str None = false
   \/ truthy_list (Some ["size"]) = false)
  /\ train_model (L:=library) (Some 1%nat) None (Some ["size"]) loaded
     = (Return "Error: No target variable selected.", loaded).
Proof.
  split; [right; left; reflexivity|].
  exact (proj1 (@train_model_preconditions library loaded 1%nat None (Some ["size"])
                  (or_intror (or_introl eq_refl)))).
Defined.

(** Predict: three features and two tokens. *)
Lemma make_prediction_count_mismatch_witness :
  truthy_str (Some "1,2") = true
  /\ ["a"; "b"; "c"] <> []
  /\ length (split comma "1,2") <> length ["a"; "b"; "c"]
  /\ make_prediction (L:=library) (Some 1%nat) (Some "1,2") (Some ["a"; "b"; "c"]) trained
     = (Return "Error: Expected 3 features, but got 2.", trained).
Proof.
  assert (H1 : ["a"; "b"; "c"] <> []) by discriminate.
  assert (H2 : length (split comma "1,2") <> length ["a"; "b"; "c"]) by (cbn; lia).
  split; [reflexivity|]. split; [exact H1|]. split; [exact H2|].
  exact (@make_prediction_count_mismatch library trained 1%nat "1,2" ["a"; "b"; "c"]
           eq_refl H1 H2).
Defined.

(** The checkboxes for the shop's table leave [flag] out. *)
Lemma get_options_omits_boolean_column_witness :
  uploaded_data loaded = Some shop
  /\ NoDup (columns shop)
  /\ In ("flag", Bool [true; false; true; true; false]) (cols shop)
  /\ exists options,
       get_options (L:=library) loaded = (Return options, loaded)
       /\ In "flag" (columns shop)
       /\ ~ In "flag" (map snd options).
Proof.
  assert (H : In ("flag", Bool [true; false; true; true; false]) (cols shop))
    by (right; left; reflexivity).
  split; [exact loaded_shop|]. split; [exact shop_names_differ|]. split; [exact H|].
  exact (@get_options_omits_boolean_column library loaded shop "flag" _
           loaded_shop shop_names_differ H).
Defined.

Example get_options_on_shop :
  fst (get_options (L:=library) loaded)
  = Return [("size", "size"); ("price", "price"); ("cost", "cost"); ("color", "color")].
Proof. reflexivity. Qed.

(** The charts for the shop's table with a categorical choice left over
    from another table. *)
Lemma update_barcharts_raises_witness :
  uploaded_data loaded = Some shop
  /\ truthy_str (Some "region") = true
  /\ lookup "region" (cols shop) = None
  /\ update_barcharts (L:=library) (Some "price") (Some "region") loaded
     = (Raise (KeyError "region"), loaded).
Proof.
  split; [exact loaded_shop|]. split; [reflexivity|]. split; [reflexivity|].
  exact (@update_barcharts_raises library loaded shop "price" "region"
           loaded_shop eq_refl eq_refl).
Defined.



(** C10 on the shop's table, with [flag] selected next to [size]. *)
Lemma other_dtypes_are_dropped_witness :
  uploaded_data loaded = Some shop
  /\ truthy_str (Some "price") = true
  /\ Forall (fun c => In c (columns shop)) ["flag"; "size"]
  /\ fst (train_body (L:=library) shop "price" ["flag"; "size"] loaded)
     = fst (train_body (L:=library) shop "price" ["size"] loaded).
Proof.
  assert (Hall : Forall (fun c => In c (columns shop)) ["flag"; "size"]).
  { apply Forall_cons; [vm_compute; auto 10|].
    apply Forall_cons; [vm_compute; auto 10|]. apply Forall_nil. }
  split; [exact loaded_shop|]. split; [reflexivity|]. split; [exact Hall|].
  exact (proj1 (proj2 (proj2 (@other_dtypes_are_dropped library loaded shop 1%nat "price"
                                 ["flag"; "size"] loaded_shop eq_refl Hall)))).
Defined.

(** C10, the claim as stated fails: with the boolean column [flag] as the
    only selected feature the preconditions hold, the column is dropped, no
    column is left for the regressor, and training returns an error. *)
Lemma training_on_a_boolean_column_fails :
  uploaded_data loaded = Some shop
  /\ lookup "flag" (cols shop) = Some (Bool [true; false; true; true; false])
  /\ transformed (L:=library) shop "flag" = false
  /\ truthy_str (Some "price") = true
  /\ fst (train_model (L:=library) (Some 1%nat) (Some "price") (Some ["flag"]) loaded)
     = Return "Error during training: 0 feature is supplied".
Proof.
  split; [exact loaded_shop|]. split; [reflexivity|]. split; [reflexivity|].
  split; [reflexivity|]. vm_compute. reflexivity.
Qed.

(** Predict "10,red" after training on [size] and [color]: [color] reaches
    the model as 0, and so it does for "10,green". *)
Lemma categorical_value_is_zeroed_witness :
  NoDup ["size"; "color"]
  /\ In ("color", inr "red")
        (combine ["size"; "color"] (map (process (L:=library)) (split comma "10,red")))
  /\ fst (model_feature_names_in_ (L:=library) trained) = Return ["size"; "color"]
  /\ fst (prediction_frame (L:=library) (map process (split comma "10,red"))
            ["size"; "color"] trained)
     = Return (mkFrame 1 [("size", Float64 [Some 10%Z]); ("color", Int64 [0%Z])])
  /\ lookup "color" [("size", Float64 [Some 10%Z]); ("color", Int64 [0%Z])]
     = Some (Int64 [0%Z])
  /\ onehot (L:=library) "red" ["red"; "blue"] (Int64 [0%Z]) = [[zero]; [zero]].
Proof.
  assert (Hnd : NoDup ["size"; "color"]).
  { repeat constructor; cbn; intuition discriminate. }
  assert (Hin : In ("color", inr "red")
                   (combine ["size"; "color"]
                      (map (process (L:=library)) (split comma "10,red")))).
  { right. left. reflexivity. }
  assert (Hfree : forall g w,
             In (g, inr w) (combine ["size"; "color"]
                              (map (process (L:=library)) (split comma "10,red"))) ->
             g ++ "_" ++ w <> "color").
  { intros g w [H|[H|[]]]; inversion H; subst; discriminate. }
  assert (Hn : fst (model_feature_names_in_ (L:=library) trained)
               = Return ["size"; "color"]) by (vm_compute; reflexivity).
  assert (HX : fst (prediction_frame (L:=library) (map process (split comma "10,red"))
                      ["size"; "color"] trained)
               = Return (mkFrame 1 [("size", Float64 [Some 10%Z]); ("color", Int64 [0%Z])]))
    by (vm_compute; reflexivity).
  pose proof (@categorical_value_is_zeroed library trained
                (map process (split comma "10,red")) ["size"; "color"] ["size"; "color"]
                _ "color" "red" Hnd Hin Hfree Hn (or_intror (or_introl eq_refl)) HX)
    as [H1 H2].
  split; [exact Hnd|]. split; [exact Hin|]. split; [exact Hn|]. split; [exact HX|].
  split; [exact H1|]. exact (H2 "red" ["red"; "blue"]).
Defined.

Example red_and_green_predict_alike :
  model trained <> None
  /\ option_map (fun p => transformers_ (preprocessor p)) (model trained)
     = Some (Some (tt, [("color", ("red", ["red"; "blue"]))]))
  /\ prediction_frame (L:=library) (map process (split comma "10,red"))
       ["size"; "color"] trained
     = prediction_frame (L:=library) (map process (split comma "10,green"))
         ["size"; "color"] trained
  /\ fst (make_prediction (L:=library) (Some 1%nat) (Some "10,red") (Some ["size"; "color"])
            trained)
     = Return "Prediction: 10.0"
  /\ fst (make_prediction (L:=library) (Some 1%nat) (Some "10,green")
            (Some ["size"; "color"]) trained)
     = Return "Prediction: 10.0".
Proof.
  split; [vm_compute; discriminate|].
  split; [vm_compute; reflexivity|]. split; [vm_compute; reflexivity|].
  split; vm_compute; reflexivity.
Qed.


(** The fitted preprocessing step of that model puts out three columns,
    under other names. *)
Example output_columns_of_the_trained_model :
  option_map (fun p => get_feature_names_out (preprocessor p)) (model trained)
  = Some (Some ["num__size"; "cat__color_red"; "cat__color_blue"])
  /\ option_map (fun p => feature_names_in_ (preprocessor p)) (model trained)
     = Some (Some ["size"; "color"]).
Proof. split; vm_compute; reflexivity. Qed.

End Checks.

(** * The further properties on the shop's table *)

Module MoreChecks.
Import Demo.
Local Open Scope string_scope.

Lemma words_loaded_words : uploaded_data words_loaded = Some words.
Proof. vm_compute. reflexivity. Qed.

Lemma shop_parses :
  parse_upload (L:=library) ("data:text/csv;base64," ++ shop_csv) = Return shop.
Proof. vm_compute. reflexivity. Qed.

Lemma size_color_differ : NoDup ["size"; "color"].
Proof. repeat constructor; cbn; intuition discriminate. Qed.

Lemma trained_names :
  fst (model_feature_names_in_ (L:=library) trained) = Return ["size"; "color"].
Proof. vm_compute. reflexivity. Qed.

(** An upload without the data URL's comma. *)
Lemma handle_upload_needs_one_comma_witness :
  truthy_str (Some "abc") = true
  /\ count_char comma "abc" <> 1%nat
  /\ handle_upload (L:=library) (Some "abc") None start
     = (Return "Error reading file: not enough values to unpack (expected 2, got 1)", start).
Proof.
  assert (H : count_char comma "abc" <> 1%nat) by (cbn; lia).
  split; [reflexivity|]. split; [exact H|].
  exact (@handle_upload_needs_one_comma library start "abc" None eq_refl H).
Defined.

(** The shop's table, uploaded: the dropdown and the checkboxes. *)
Lemma upload_then_options_witness :
  truthy_str (Some ("data:text/csv;base64," ++ shop_csv)) = true
  /\ parse_upload (L:=library) ("data:text/csv;base64," ++ shop_csv) = Return shop
  /\ fst (update_target_dropdown (L:=library) loaded)
     = Return [("size", "size"); ("price", "price"); ("cost", "cost")]
  /\ fst (get_options (L:=library) loaded)
     = Return [("size", "size"); ("price", "price"); ("cost", "cost"); ("color", "color")].
Proof.
  split; [reflexivity|]. split; [exact shop_parses|].
  exact (@upload_then_options library start ("data:text/csv;base64," ++ shop_csv)
           (Some "shop.csv") shop eq_refl shop_parses).
Defined.

Lemma get_options_sound_witness :
  uploaded_data loaded = Some shop
  /\ exists options targets,
       get_options (L:=library) loaded = (Return options, loaded)
       /\ update_target_dropdown (L:=library) loaded = (Return targets, loaded)
       /\ (forall o, In o options -> fst o = snd o /\ In (snd o) (columns shop))
       /\ (forall o, In o targets -> In o options)
       /\ (NoDup (columns shop) -> NoDup (map snd options)).
Proof.
  split; [exact Checks.loaded_shop|].
  exact (@get_options_sound library loaded shop Checks.loaded_shop).
Defined.

(** The table of words has no numeric column: no chart, no error, for a
    target that names nothing. *)
Lemma update_barcharts_without_numeric_data_witness :
  uploaded_data words_loaded = Some words
  /\ is_empty (L:=library) (select_dtypes (@is_number num) words) = true
  /\ truthy_str None = false
  /\ update_barcharts (L:=library) (Some "weight") None words_loaded
     = (Return ([("color", "color"); ("fruit", "fruit")], None, None), words_loaded).
Proof.
  split; [exact words_loaded_words|]. split; [reflexivity|]. split; [reflexivity|].
  exact (@update_barcharts_without_numeric_data library words_loaded words "weight" None
           words_loaded_words eq_refl eq_refl).
Defined.

(** The shop's table with [color] chosen and a target that names nothing. *)
Lemma update_barcharts_unknown_target_witness :
  uploaded_data loaded = Some shop
  /\ truthy_str (Some "color") = true
  /\ lookup "color" (cols shop)
     = Some (Object [Some "red"; Some "blue"; Some "red"; Some "blue"; Some "red"])
  /\ lookup "weight" (cols shop) = None
  /\ update_barcharts (L:=library) (Some "weight") (Some "color") loaded
     = (Raise (KeyError "Column not found: weight"), loaded).
Proof.
  split; [exact Checks.loaded_shop|]. split; [reflexivity|]. split; [reflexivity|].
  split; [reflexivity|].
  exact (@update_barcharts_unknown_target library loaded shop "weight" "color" _
           Checks.loaded_shop eq_refl eq_refl eq_refl).
Defined.

(** Training on [size] and [color] succeeds and leaves a fitted model. *)
Lemma successful_training_installs_fitted_model_witness :
  uploaded_data loaded = Some shop
  /\ truthy_str (Some "price") = true
  /\ ["size"; "color"] <> []
  /\ fst (train_model (L:=library) (Some 1%nat) (Some "price") (Some ["size"; "color"]) loaded)
     = Return ("Model trained successfully! R^2 score: " ++ "1.0000")
  /\ exists p nf cf b,
       model trained = Some p
       /\ feature_names_in_ (preprocessor p) = Some ["size"; "color"]
       /\ transformers_ (preprocessor p) = Some (nf, cf)
       /\ map fst cf = categorical_features (preprocessor p)
       /\ booster_ p = Some b
       /\ calls trained = (calls loaded ++ [called_fit; called_predict])%list.
Proof.
  assert (Hsf : ["size"; "color"] <> []) by discriminate.
  assert (Hmsg : fst (train_model (L:=library) (Some 1%nat) (Some "price")
                        (Some ["size"; "color"]) loaded)
                 = Return ("Model trained successfully! R^2 score: " ++ "1.0000"))
    by (vm_compute; reflexivity).
  split; [exact Checks.loaded_shop|]. split; [reflexivity|]. split; [exact Hsf|].
  split; [exact Hmsg|].
  exact (@successful_training_installs_fitted_model library loaded shop 1%nat "price"
           ["size"; "color"] "1.0000" Checks.loaded_shop eq_refl Hsf Hmsg).
Defined.

(** Training again from the trained state leaves the model that training
    from the freshly loaded state leaves. *)
Lemma installed_model_ignores_previous_model_witness :
  uploaded_data trained = Some shop
  /\ uploaded_data loaded = Some shop
  /\ truthy_str (Some "price") = true
  /\ ["size"] <> []
  /\ model (snd (train_model (L:=library) (Some 2%nat) (Some "price") (Some ["size"]) trained))
     = model (snd (train_model (L:=library) (Some 1%nat) (Some "price") (Some ["size"])
                     loaded)).
Proof.
  assert (Hd : uploaded_data trained = Some shop) by (vm_compute; reflexivity).
  assert (Hsf : ["size"] <> []) by discriminate.
  destruct (slicing_and_splitting (L:=library) shop "price" ["size"])
    as [split_data|e] eqn:E; [|vm_compute in E; discriminate E].
  split; [exact Hd|]. split; [exact Checks.loaded_shop|]. split; [reflexivity|].
  split; [exact Hsf|].
  exact (@installed_model_ignores_previous_model library trained loaded shop 2%nat 1%nat
           "price" ["size"] split_data Hd Checks.loaded_shop eq_refl Hsf E).
Defined.

(** Predict on the loaded table before any training. *)
Lemma make_prediction_without_model_witness :
  model loaded = None
  /\ truthy_str (Some "10,red") = true
  /\ ["size"; "color"] <> []
  /\ length (split comma "10,red") = length ["size"; "color"]
  /\ make_prediction (L:=library) (Some 1%nat) (Some "10,red") (Some ["size"; "color"]) loaded
     = (Return "Error: 'NoneType' object has no attribute 'feature_names_in_'", loaded).
Proof.
  assert (Hm : model loaded = None) by (vm_compute; reflexivity).
  assert (Hsf : ["size"; "color"] <> []) by discriminate.
  split; [exact Hm|]. split; [reflexivity|]. split; [exact Hsf|]. split; [reflexivity|].
  exact (@make_prediction_without_model library loaded 1%nat "10,red" ["size"; "color"]
           Hm eq_refl Hsf eq_refl).
Defined.

(** Predict after the training that failed in [fit]. *)
Lemma make_prediction_on_unfitted_model_witness :
  (exists p, model broken = Some p /\ booster_ p = None)
  /\ truthy_str (Some "10") = true
  /\ ["size"] <> []
  /\ length (split comma "10") = length ["size"]
  /\ exists e,
       fst (make_prediction (L:=library) (Some 1%nat) (Some "10") (Some ["size"]) broken)
       = Return ("Error: " ++ str e).
Proof.
  assert (Hsf : ["size"] <> []) by discriminate.
  destruct (model broken) as [p|] eqn:Hm; [|vm_compute in Hm; discriminate Hm].
  assert (Hb : booster_ p = None).
  { vm_compute in Hm. injection Hm as Hm. rewrite <- Hm. reflexivity. }
  split; [exists p; split; [reflexivity|exact Hb]|].
  split; [reflexivity|]. split; [exact Hsf|]. split; [reflexivity|].
  exact (@make_prediction_on_unfitted_model library broken p 1%nat "10" ["size"]
           Hm Hb eq_refl Hsf eq_refl).
Defined.

(** "10,red," for the two features [size] and [color]. *)
Lemma make_prediction_trailing_comma_witness :
  ["size"; "color"] <> []
  /\ length (split comma "10,red") = length ["size"; "color"]
  /\ make_prediction (L:=library) (Some 1%nat) (Some "10,red,") (Some ["size"; "color"]) trained
     = (Return "Error: Expected 2 features, but got 3.", trained).
Proof.
  assert (Hsf : ["size"; "color"] <> []) by discriminate.
  split; [exact Hsf|]. split; [reflexivity|].
  exact (@make_prediction_trailing_comma library trained 1%nat "10,red" ["size"; "color"]
           Hsf eq_refl).
Defined.


(** Filling [a] then [b], or [b], [a] and [a] again. *)
Lemma zero_fill_order_is_irrelevant_witness :
  (forall f, In f ["a"; "b"] <-> In f ["b"; "a"; "a"])
  /\ getitem_list (fold_left (@setitem_zero num) ["a"; "b"]
                     (mkFrame 1 [("size", Float64 [Some 10%Z])])) ["a"; "size"; "b"]
     = getitem_list (fold_left (@setitem_zero num) ["b"; "a"; "a"]
                       (mkFrame 1 [("size", Float64 [Some 10%Z])])) ["a"; "size"; "b"].
Proof.
  assert (H : forall f, In f ["a"; "b"] <-> In f ["b"; "a"; "a"]).
  { intros f. cbn. tauto. }
  split; [exact H|].
  exact (@zero_fill_order_is_irrelevant library (mkFrame 1 [("size", Float64 [Some 10%Z])])
           ["a"; "b"] ["b"; "a"; "a"] ["a"; "size"; "b"] H).
Defined.

Lemma red_row_free (f g w : string) :
  In f ["size"; "color"] ->
  In (g, inr w)
     (combine ["size"; "color"] (map (process (L:=library)) (split comma "10,red"))) ->
  g ++ "_" ++ w <> f.
Proof.
  intros Hf [H|[H|[]]]; inversion H; subst.
  destruct Hf as [Hf|[Hf|[]]]; subst; discriminate.
Qed.

Lemma green_row_free (f g w : string) :
  In f ["size"; "color"] ->
  In (g, inr w)
     (combine ["size"; "color"] (map (process (L:=library)) (split comma "10,green"))) ->
  g ++ "_" ++ w <> f.
Proof.
  intros Hf [H|[H|[]]]; inversion H; subst.
  destruct Hf as [Hf|[Hf|[]]]; subst; discriminate.
Qed.

(** "10,red" after training on [size] and [color]: [size] reaches the model
    as 10. *)
Lemma numeric_value_is_kept_witness :
  NoDup ["size"; "color"]
  /\ In ("size", inl (Some 10%Z))
        (combine ["size"; "color"] (map (process (L:=library)) (split comma "10,red")))
  /\ fst (model_feature_names_in_ (L:=library) trained) = Return ["size"; "color"]
  /\ fst (prediction_frame (L:=library) (map process (split comma "10,red"))
            ["size"; "color"] trained)
     = Return (mkFrame 1 [("size", Float64 [Some 10%Z]); ("color", Int64 [0%Z])])
  /\ lookup "size" [("size", Float64 [Some 10%Z]); ("color", @Int64 num [0%Z])]
     = Some (Float64 [Some 10%Z]).
Proof.
  assert (Hin : In ("size", inl (Some 10%Z))
                   (combine ["size"; "color"]
                      (map (process (L:=library)) (split comma "10,red"))))
    by (left; reflexivity).
  assert (HX : fst (prediction_frame (L:=library) (map process (split comma "10,red"))
                      ["size"; "color"] trained)
               = Return (mkFrame 1 [("size", Float64 [Some 10%Z]); ("color", Int64 [0%Z])]))
    by (vm_compute; reflexivity).
  split; [exact size_color_differ|]. split; [exact Hin|]. split; [exact trained_names|].
  split; [exact HX|].
  exact (@numeric_value_is_kept library trained (map process (split comma "10,red"))
           ["size"; "color"] ["size"; "color"] _ "size" (Some 10%Z)
           size_color_differ Hin (fun g w => @red_row_free "size" g w (or_introl eq_refl))
           trained_names (or_introl eq_refl) HX).
Defined.

(** "10,red" and "10,green" after training on [size] and [color]. *)
Lemma string_tokens_are_ignored_witness :
  truthy_str (Some "10,red") = true
  /\ truthy_str (Some "10,green") = true
  /\ fst (model_feature_names_in_ (L:=library) trained) = Return ["size"; "color"]
  /\ same_numbers (L:=library) (map process (split comma "10,red"))
                  (map process (split comma "10,green"))
  /\ make_prediction (L:=library) (Some 1%nat) (Some "10,red") (Some ["size"; "color"]) trained
     = make_prediction (L:=library) (Some 1%nat) (Some "10,green") (Some ["size"; "color"])
         trained.
Proof.
  assert (Hs : same_numbers (L:=library) (map process (split comma "10,red"))
                 (map process (split comma "10,green"))).
  { unfold same_numbers. vm_compute. repeat constructor. }
  split; [reflexivity|]. split; [reflexivity|]. split; [exact trained_names|].
  split; [exact Hs|].
  exact (@string_tokens_are_ignored library trained 1%nat "10,red" "10,green"
           ["size"; "color"] ["size"; "color"] eq_refl eq_refl trained_names Hs
           red_row_free green_row_free).
Defined.

End MoreChecks.
